(** * Stirling PDF MCP server: a shallow embedding of [src/index.ts]

    The adapter is glue code: it validates textual arguments, decodes
    base64 data URLs, assembles a multipart form, posts it once and wraps
    the answer as a data URL.  The embedding keeps that shape:

    - JavaScript strings are sequences of UTF-16 code units ([jsstring]);
    - a [Buffer] is a sequence of bytes ([list byte]);
    - [try]/[catch] and the single network effect live in a small monad
      that threads the list of requests issued so far;
    - the platform ([Buffer], [String.prototype.trim], regular
      expressions, [axios.post]) is modelled next to the code that uses it.

    Logging to stderr neither changes a returned value nor touches the
    network; it is left out. *)

From Stdlib Require Import NArith Decimal Lia.
From Stdlib.Strings Require Import Ascii String Byte.
From stdpp Require Import base option list gmap.

Local Open Scope N_scope.
Local Open Scope list_scope.

(** ** JavaScript strings *)

Module Js.

(** A UTF-16 code unit, 0 .. 65535. *)
Definition code_unit := N.

Definition jsstring := list code_unit.

(** ASCII literals of the source, written as Rocq strings. *)
Fixpoint lit (s : string) : jsstring :=
  match s with
  | EmptyString => []
  | String a r => N_of_ascii a :: lit r
  end.

(** Code units of the few non-ASCII characters the source prints. *)
Definition cross_mark : jsstring := [0x274C].          (* U+274C *)
Definition check_mark : jsstring := [0x2705].          (* U+2705 *)
Definition page_icon : jsstring := [0xD83D; 0xDCC4].   (* U+1F4C4 *)
Definition package_icon : jsstring := [0xD83D; 0xDCE6]. (* U+1F4E6 *)
Definition degree_sign : jsstring := [0x00B0].         (* U+00B0 *)
Definition dquote : jsstring := [34].
Definition newline : jsstring := [10].

(** [`${n}`] for a non-negative integer: its decimal digits. *)
Fixpoint digits (u : Decimal.uint) : jsstring :=
  match u with
  | Nil => []
  | D0 r => 48 :: digits r
  | D1 r => 49 :: digits r
  | D2 r => 50 :: digits r
  | D3 r => 51 :: digits r
  | D4 r => 52 :: digits r
  | D5 r => 53 :: digits r
  | D6 r => 54 :: digits r
  | D7 r => 55 :: digits r
  | D8 r => 56 :: digits r
  | D9 r => 57 :: digits r
  end.

Definition of_N (n : N) : jsstring := digits (N.to_uint n).
Definition of_nat (n : nat) : jsstring := of_N (N.of_nat n).

(** [s.includes(t)]: [t] occurs in [s] as a contiguous run. *)
Definition includes (s t : jsstring) : Prop :=
  exists before after, s = before ++ t ++ after.

Fixpoint starts_with (p s : jsstring) : bool :=
  match p, s with
  | [], _ => true
  | a :: p', b :: s' => (a =? b) && starts_with p' s'
  | _ :: _, [] => false
  end.

Fixpoint includesb (s t : jsstring) : bool :=
  starts_with t s ||
  match s with
  | [] => false
  | _ :: s' => includesb s' t
  end.

(** WhiteSpace and LineTerminator of ECMAScript, the code units that
    [String.prototype.trim] removes. *)
Definition is_space (c : code_unit) : bool :=
  ((9 <=? c) && (c <=? 13)) || (c =? 32) || (c =? 0xA0) || (c =? 0x1680)
  || ((0x2000 <=? c) && (c <=? 0x200A)) || (c =? 0x2028) || (c =? 0x2029)
  || (c =? 0x202F) || (c =? 0x205F) || (c =? 0x3000) || (c =? 0xFEFF).

Fixpoint trimStart (s : jsstring) : jsstring :=
  match s with
  | [] => []
  | c :: r => if is_space c then trimStart r else s
  end.

Definition trimEnd (s : jsstring) : jsstring := rev (trimStart (rev s)).

Definition trim (s : jsstring) : jsstring := trimEnd (trimStart s).

Definition is_empty (s : jsstring) : bool :=
  match s with [] => true | _ => false end.

(** [a || b] on strings: the empty string is falsy. *)
Definition or_else (a b : jsstring) : jsstring :=
  if is_empty a then b else a.

(** [s.split(",")] *)
Fixpoint split_on (sep : code_unit) (s : jsstring) : list jsstring :=
  match s with
  | [] => [[]]
  | c :: r =>
      if c =? sep then [] :: split_on sep r
      else match split_on sep r with
           | [] => [[c]]
           | w :: ws => (c :: w) :: ws
           end
  end.

End Js.

Export Js.

(** ** Regular expressions, as far as the source uses them

    Both patterns of the source are anchored with [^], carry no flags and
    are sequences of literal characters and of greedy [+] repetitions of a
    character class, one of them inside a capture group. *)

Module Regex.

Inductive item :=
| Lit (c : code_unit)
| Rep1 (capture : bool) (cls : code_unit -> bool).

Definition pattern := list item.

Definition literal (s : string) : pattern := map Lit (lit s).

(** A successful match: the captured groups in order, and the text that
    follows the match. *)
Definition result : Type := list jsstring * jsstring.

Definition record (capture : bool) (w : jsstring) (r : option result)
  : option result :=
  if capture
  then match r with Some (caps, rest) => Some (w :: caps, rest) | None => None end
  else r.

(** Greedy repetition with backtracking: take one more character of the
    class when possible; when the rest of the pattern then fails, give
    the character back. [acc] is the text taken so far. *)
Fixpoint greedy (cls : code_unit -> bool) (k : jsstring -> jsstring -> option result)
    (acc t : jsstring) : option result :=
  match t with
  | y :: t' =>
      if cls y
      then match greedy cls k (acc ++ [y]) t' with
           | Some r => Some r
           | None => k acc t
           end
      else k acc t
  | [] => k acc t
  end.

(** Match the pattern at the start of the subject. *)
Fixpoint exec (p : pattern) : jsstring -> option result :=
  match p with
  | [] => fun s => Some ([], s)
  | Lit c :: p' => fun s =>
      match s with
      | x :: s' => if x =? c then exec p' s' else None
      | [] => None
      end
  | Rep1 capture cls :: p' => fun s =>
      match s with
      | x :: s' =>
          if cls x
          then greedy cls (fun w t => record capture w (exec p' t)) [x] s'
          else None
      | [] => None
      end
  end.

(** [s.replace(re, "")] for an anchored pattern without the [g] flag: the
    match, if any, starts at index 0 and is removed once. *)
Definition remove_match (p : pattern) (s : jsstring) : jsstring :=
  match exec p s with
  | Some (_, rest) => rest
  | None => s
  end.

(** [s.match(re)] followed by [m[1]]: the first capture group. *)
Definition first_group (p : pattern) (s : jsstring) : option jsstring :=
  match exec p s with
  | Some (w :: _, _) => Some w
  | _ => None
  end.

(** [[^;]] *)
Definition not_semicolon (c : code_unit) : bool := negb (c =? 59).

(** [\w]: ASCII letters, digits and the underscore. *)
Definition word_char (c : code_unit) : bool :=
  ((65 <=? c) && (c <=? 90)) || ((97 <=? c) && (c <=? 122))
  || ((48 <=? c) && (c <=? 57)) || (c =? 95).

End Regex.

(** ** Node's [Buffer]: base64 and UTF-8

    [Buffer.from(s, "base64")] and [buf.toString("base64")] belong to the
    platform.  The encoder is RFC 4648 with padding and no line breaks.
    The decoder is lenient: it reads every code unit by its low byte, a
    character outside the alphabet is skipped, the URL-safe [-] and [_]
    are accepted, the first [=] ends the input, and a dangling group
    yields the bytes it fully determines. *)

Module Buffer.

Definition t := list byte.

Definition byte_of_N (n : N) : byte :=
  match Byte.of_N (n mod 256) with
  | Some b => b
  | None => x00
  end.

Definition alphabet : jsstring :=
  lit "ABCDEFGHIJKLMNOPQRSTUVWXYZabcdefghijklmnopqrstuvwxyz0123456789+/".

Definition pad : code_unit := 61.

Definition enc (v : N) : code_unit := nth (N.to_nat v) alphabet pad.

(** The 6-bit values that three bytes [a], [b], [c] spread over four
    characters. *)
Definition hi6 (a : N) : N := N.shiftr a 2.
Definition mid1 (a b : N) : N := N.lor (N.shiftl (N.land a 3) 4) (N.shiftr b 4).
Definition mid2 (b c : N) : N := N.lor (N.shiftl (N.land b 15) 2) (N.shiftr c 6).
Definition lo6 (c : N) : N := N.land c 63.

(** The four characters of a full group, and of the padded last groups. *)
Definition enc3 (x y z : byte) : jsstring :=
  let a := Byte.to_N x in
  let b := Byte.to_N y in
  let c := Byte.to_N z in
  [ enc (hi6 a); enc (mid1 a b); enc (mid2 b c); enc (lo6 c) ].

Definition enc2 (x y : byte) : jsstring :=
  let a := Byte.to_N x in
  let b := Byte.to_N y in
  [ enc (hi6 a); enc (mid1 a b); enc (N.shiftl (N.land b 15) 2); pad ].

Definition enc1 (x : byte) : jsstring :=
  let a := Byte.to_N x in
  [ enc (hi6 a); enc (N.shiftl (N.land a 3) 4); pad; pad ].

(** [buf.toString("base64")] *)
Fixpoint toBase64 (b : t) : jsstring :=
  match b with
  | [] => []
  | [x] => enc1 x
  | [x; y] => enc2 x y
  | x :: y :: z :: r => enc3 x y z ++ toBase64 r
  end.

(** The decoder reads a code unit through a cast to eight bits: only its
    low byte counts. *)
Definition low_byte (c : code_unit) : N := c mod 256.

(** The value of a character of the alphabet, standard or URL-safe. *)
Definition unbase64 (c : code_unit) : option N :=
  let x := low_byte c in
  if (65 <=? x) && (x <=? 90) then Some (x - 65)
  else if (97 <=? x) && (x <=? 122) then Some (x - 71)
  else if (48 <=? x) && (x <=? 57) then Some (x + 4)
  else if (x =? 43) || (x =? 45) then Some 62
  else if (x =? 47) || (x =? 95) then Some 63
  else None.

(** The values the decoder reads: legal characters up to the first [=],
    each code unit taken by its low byte. *)
Fixpoint sextets (s : jsstring) : list N :=
  match s with
  | [] => []
  | c :: r =>
      match unbase64 c with
      | Some v => v :: sextets r
      | None => if low_byte c =? pad then [] else sextets r
      end
  end.

Definition dec1 (hi lo : N) : byte :=
  byte_of_N (N.lor (N.shiftl (N.land hi 0x3F) 2) (N.shiftr (N.land lo 0x30) 4)).
Definition dec2 (hi lo : N) : byte :=
  byte_of_N (N.lor (N.shiftl (N.land hi 0x0F) 4) (N.shiftr (N.land lo 0x3C) 2)).
Definition dec3 (hi lo : N) : byte :=
  byte_of_N (N.lor (N.shiftl (N.land hi 0x03) 6) (N.land lo 0x3F)).

Fixpoint bytes_of_sextets (l : list N) : t :=
  match l with
  | a :: b :: c :: d :: r => dec1 a b :: dec2 b c :: dec3 c d :: bytes_of_sextets r
  | [a; b; c] => [dec1 a b; dec2 b c]
  | [a; b] => [dec1 a b]
  | _ => []
  end.

(** [Buffer.from(s, "base64")]; it never throws. *)
Definition fromBase64 (s : jsstring) : t := bytes_of_sextets (sextets s).

(** [buf.toString("utf-8")]: the WHATWG UTF-8 decoder.  An ill-formed
    sequence becomes U+FFFD; a code point above U+FFFF becomes a
    surrogate pair. *)
Record utf8_state := {
  code_point : N;
  bytes_left : N;
  lower : N;
  upper : N
}.

Definition replacement : code_unit := 0xFFFD.

Definition code_units (cp : N) : jsstring :=
  if cp <? 0x10000 then [cp]
  else [0xD800 + N.shiftr (cp - 0x10000) 10; 0xDC00 + N.land (cp - 0x10000) 0x3FF].

(** A byte read when no sequence is pending. *)
Definition utf8_lead (b : N) : jsstring * option utf8_state :=
  if b <=? 0x7F then ([b], None)
  else if (0xC2 <=? b) && (b <=? 0xDF) then
    ([], Some {| code_point := N.land b 0x1F; bytes_left := 1;
                 lower := 0x80; upper := 0xBF |})
  else if (0xE0 <=? b) && (b <=? 0xEF) then
    ([], Some {| code_point := N.land b 0xF; bytes_left := 2;
                 lower := if b =? 0xE0 then 0xA0 else 0x80;
                 upper := if b =? 0xED then 0x9F else 0xBF |})
  else if (0xF0 <=? b) && (b <=? 0xF4) then
    ([], Some {| code_point := N.land b 0x7; bytes_left := 3;
                 lower := if b =? 0xF0 then 0x90 else 0x80;
                 upper := if b =? 0xF4 then 0x8F else 0xBF |})
  else ([replacement], None).

Fixpoint utf8_decode (st : option utf8_state) (bs : t) : jsstring :=
  match bs with
  | [] => match st with None => [] | Some _ => [replacement] end
  | x :: r =>
      let b := Byte.to_N x in
      match st with
      | None => let '(out, st') := utf8_lead b in out ++ utf8_decode st' r
      | Some s =>
          if (lower s <=? b) && (b <=? upper s) then
            let cp := N.lor (N.shiftl (code_point s) 6) (N.land b 0x3F) in
            if bytes_left s =? 1 then code_units cp ++ utf8_decode None r
            else utf8_decode
                   (Some {| code_point := cp; bytes_left := bytes_left s - 1;
                            lower := 0x80; upper := 0xBF |}) r
          else
            let '(out, st') := utf8_lead b in
            replacement :: out ++ utf8_decode st' r
      end
  end.

Definition toUtf8String (b : t) : jsstring := utf8_decode None b.

End Buffer.

(** ** Values that cross the server's boundaries *)

(** One part of a multipart body, in the order of the [append] calls. *)
Inductive Part :=
| Field (name value : jsstring)
| File (name : jsstring) (content : Buffer.t) (filename : jsstring).

Definition FormData := list Part.

Definition append (formData : FormData) (name value : jsstring) : FormData :=
  formData ++ [Field name value].

Definition append_file (formData : FormData) (name : jsstring)
    (content : Buffer.t) (filename : jsstring) : FormData :=
  formData ++ [File name content filename].

Definition is_file (p : Part) : bool :=
  match p with File _ _ _ => true | Field _ _ => false end.

(** The binary parts of a body, in order. *)
Definition binary_parts (formData : FormData) : list Part :=
  List.filter is_file formData.

(** [error.response] of an axios error. *)
Record AxiosResponse := {
  status : N;
  statusText : jsstring;
  data : option Buffer.t
}.

(** What a [throw] carries. *)
Inductive Thrown :=
| Error (message : jsstring)
| AxiosError (message : jsstring) (response : option AxiosResponse)
| NotAnError (asString : jsstring).

(** The configuration object and arguments of [axios.post]. *)
Record Request := {
  url : jsstring;
  body : FormData;
  headers : gmap jsstring jsstring;
  timeout : N
}.

(** How the promise of [axios.post] settles. *)
Inductive Settled :=
| Resolved (responseData : Buffer.t)
| Rejected (error : Thrown).

(** ** Control flow: exceptions and the network trace *)

Inductive Completion (A : Type) :=
| Returned (a : A)
| Threw (t : Thrown).
Arguments Returned {A} a.
Arguments Threw {A} t.

(** A computation reads the requests issued so far and extends them. *)
Definition M (A : Type) : Type := list Request -> Completion A * list Request.

Definition ret {A} (a : A) : M A := fun log => (Returned a, log).

Definition throw {A} (t : Thrown) : M A := fun log => (Threw t, log).

Definition bind {A B} (m : M A) (k : A -> M B) : M B :=
  fun log =>
    match m log with
    | (Returned a, log') => k a log'
    | (Threw t, log') => (Threw t, log')
    end.

Definition try_catch {A} (m : M A) (handler : Thrown -> M A) : M A :=
  fun log =>
    match m log with
    | (Returned a, log') => (Returned a, log')
    | (Threw t, log') => handler t log'
    end.

Declare Scope js_scope.
Delimit Scope js_scope with js.
Notation "x <- m ;; k" := (bind m (fun x => k))
  (at level 100, m at next level, right associativity) : js_scope.
Notation "m ;;; k" := (bind m (fun _ => k))
  (at level 100, right associativity) : js_scope.

(** [array.forEach((x, index) => ...)] over a local that the callback
    updates. *)
Fixpoint forEach_from {A S : Type} (index : nat) (l : list A)
    (callback : A -> nat -> S -> S) (st : S) : S :=
  match l with
  | [] => st
  | x :: r => forEach_from (index + 1) r callback (callback x index st)
  end.

Definition forEach {A S : Type} (l : list A) (callback : A -> nat -> S -> S)
    (st : S) : S := forEach_from 0 l callback st.

(** ** Untyped values

    The arguments of a tool call arrive as parsed JSON: any value may
    stand where the schema asks for a string.  A number is kept as the bit
    pattern of its IEEE double. *)
#[local] Unset Elimination Schemes.
Inductive JsValue :=
| JNull
| JBool (b : bool)
| JNumber (bits : N)
| JString (s : jsstring)
| JArray (items : list JsValue)
| JObject (fields : list (jsstring * JsValue)).
#[local] Set Elimination Schemes.

(** A double is falsy when it is a zero of either sign or a NaN. *)
Definition number_truthy (bits : N) : bool :=
  let magnitude := N.land bits 0x7FFFFFFFFFFFFFFF in
  negb (magnitude =? 0) && (magnitude <=? 0x7FF0000000000000).

(** [ToBoolean] *)
Definition truthy (v : JsValue) : bool :=
  match v with
  | JNull => false
  | JBool b => b
  | JNumber bits => number_truthy bits
  | JString s => negb (is_empty s)
  | JArray _ | JObject _ => true
  end.

(** [v || fallback], for a property that may be absent. *)
Definition or_value (v : option JsValue) (fallback : JsValue) : JsValue :=
  match v with
  | Some x => if truthy x then x else fallback
  | None => fallback
  end.

(** The value is of the type that a parameter declares. *)
Definition as_string (v : JsValue) : option jsstring :=
  match v with
  | JString s => Some s
  | _ => None
  end.

Definition as_strings (v : JsValue) : option (list jsstring) :=
  match v with
  | JArray items => mapM as_string items
  | _ => None
  end.

(** ** The process and its surroundings

    The environment variables, the multipart library's headers and the
    remote side.  A type assertion checks nothing at run time, so a
    handler can be called with a value that is not of its parameter's
    type; what it does then depends on the platform's coercions and on the
    multipart library, and is left to [unchecked_call], which gets the
    handler's name and the values it was called with. *)
Record World := {
  env_STIRLING_PDF_URL : option jsstring;
  env_STIRLING_PDF_API_KEY : option jsstring;
  getHeaders : FormData -> gmap jsstring jsstring;
  axios_post : Request -> Settled;
  unchecked_call : jsstring -> list JsValue -> M jsstring
}.

(** ** The server *)

Section Server.

Variable world : World.

(** [process.env.X || fallback] *)
Definition env_or (v : option jsstring) (fallback : jsstring) : jsstring :=
  or_else (default [] v) fallback.

Definition STIRLING_PDF_URL : jsstring :=
  env_or (env_STIRLING_PDF_URL world) (lit "http://localhost:8080").

Definition STIRLING_PDF_API_KEY : jsstring :=
  env_or (env_STIRLING_PDF_API_KEY world) [].

(** *** Utility functions *)

Definition formatError (error : Thrown) : jsstring :=
  match error with
  | Error message | AxiosError message _ =>
      cross_mark ++ lit " Error: " ++ message
  | NotAnError asString => cross_mark ++ lit " Error: " ++ asString
  end.

Definition validateRequired (value : option jsstring) (name : jsstring) : M jsstring :=
  match value with
  | None => throw (Error (name ++ lit " is required"))
  | Some v =>
      if is_empty v || is_empty (trim v)
      then throw (Error (name ++ lit " is required"))
      else ret (trim v)
  end.

(** [/^data:[^;]+;base64,/] *)
Definition data_url_prefix : Regex.pattern :=
  Regex.literal "data:" ++ [Regex.Rep1 false Regex.not_semicolon]
  ++ Regex.literal ";base64,".

Definition base64ToBuffer (base64 : jsstring) : Buffer.t :=
  let base64Data := Regex.remove_match data_url_prefix base64 in
  Buffer.fromBase64 base64Data.

Definition isAxiosError (error : Thrown) : bool :=
  match error with AxiosError _ _ => true | _ => false end.

Definition response_of (error : Thrown) : option AxiosResponse :=
  match error with AxiosError _ r => r | _ => None end.

(** [await axios.post(...)]: the request goes out, then the promise
    settles. *)
Definition await_post (request : Request) : M Buffer.t :=
  fun log =>
    match axios_post world request with
    | Resolved responseData => (Returned responseData, log ++ [request])
    | Rejected error => (Threw error, log ++ [request])
    end.

Definition callStirlingAPI (endpoint : jsstring) (formData : FormData) : M Buffer.t :=
  let url := STIRLING_PDF_URL ++ endpoint in
  let headers := getHeaders world formData in
  let headers :=
    if is_empty STIRLING_PDF_API_KEY then headers
    else <[lit "X-API-KEY" := STIRLING_PDF_API_KEY]> headers in
  let request :=
    {| url := url; body := formData; headers := headers; timeout := 120000 |} in
  try_catch
    (await_post request)
    (fun error =>
       if isAxiosError error then
         let status :=
           match response_of error with
           | Some r => if status r =? 0 then lit "unknown" else of_N (status r)
           | None => lit "unknown"
           end in
         let statusText :=
           or_else (from_option statusText [] (response_of error))
                   (lit "Unknown Error") in
         let errorData :=
           match response_of error with
           | Some {| data := Some d |} => Buffer.toUtf8String d
           | _ => []
           end in
         throw (Error (lit "Stirling PDF API returned " ++ status ++ lit ": "
                       ++ or_else errorData statusText))
       else throw error).

Definition bufferToBase64DataUrl (buffer : Buffer.t) (mimeType : option jsstring)
  : jsstring :=
  let mimeType := default (lit "application/pdf") mimeType in
  lit "data:" ++ mimeType ++ lit ";base64," ++ Buffer.toBase64 buffer.

(** *** Tool implementations *)

Definition pdf_result_label : jsstring :=
  newline ++ newline ++ page_icon ++ lit " Result (base64 data URL):" ++ newline.

Definition zip_result_label : jsstring :=
  newline ++ newline ++ package_icon
  ++ lit " Result (ZIP file as base64 data URL):" ++ newline.

Definition zip : option jsstring := Some (lit "application/zip").

Definition mergePDFs (pdfFiles : option (list jsstring)) (sortType : option jsstring)
  : M jsstring :=
  let pdfFiles := default [] pdfFiles in
  let sortType := default (lit "orderProvided") sortType in
  try_catch
    ((if (length pdfFiles <? 2)%nat
      then throw (Error (lit "At least 2 PDF files are required for merging"))
      else ret tt) ;;;
     let formData : FormData := [] in
     let formData :=
       forEach pdfFiles
         (fun base64Pdf index formData =>
            let buffer := base64ToBuffer base64Pdf in
            append_file formData (lit "fileInput") buffer
              (lit "file" ++ of_nat (index + 1) ++ lit ".pdf"))
         formData in
     let formData := append formData (lit "sortType") sortType in
     resultBuffer <- callStirlingAPI (lit "/api/v1/general/merge-pdfs") formData ;;
     let resultBase64 := bufferToBase64DataUrl resultBuffer None in
     ret (check_mark ++ lit " Successfully merged " ++ of_nat (length pdfFiles)
          ++ lit " PDF files" ++ pdf_result_label ++ resultBase64))%js
    (fun error => ret (formatError error)).

Definition splitPDF (pdfFile pageNumbers : option jsstring) : M jsstring :=
  let pdfFile := default [] pdfFile in
  let pageNumbers := default [] pageNumbers in
  try_catch
    (validateRequired (Some pdfFile) (lit "pdfFile") ;;;
     validateRequired (Some pageNumbers) (lit "pageNumbers") ;;;
     let formData : FormData := [] in
     let buffer := base64ToBuffer pdfFile in
     let formData := append_file formData (lit "fileInput") buffer (lit "input.pdf") in
     let formData := append formData (lit "pageNumbers") pageNumbers in
     resultBuffer <- callStirlingAPI (lit "/api/v1/general/split-pages") formData ;;
     let resultBase64 := bufferToBase64DataUrl resultBuffer zip in
     ret (check_mark ++ lit " Successfully split PDF at pages: " ++ pageNumbers
          ++ zip_result_label ++ resultBase64))%js
    (fun error => ret (formatError error)).

Definition compressPDF (pdfFile optimizeLevel : option jsstring) : M jsstring :=
  let pdfFile := default [] pdfFile in
  let optimizeLevel := default (lit "2") optimizeLevel in
  try_catch
    (validateRequired (Some pdfFile) (lit "pdfFile") ;;;
     let formData : FormData := [] in
     let buffer := base64ToBuffer pdfFile in
     let formData := append_file formData (lit "fileInput") buffer (lit "input.pdf") in
     let formData := append formData (lit "optimizeLevel") optimizeLevel in
     let formData := append formData (lit "fastWebView") (lit "false") in
     resultBuffer <- callStirlingAPI (lit "/api/v1/misc/compress-pdf") formData ;;
     let resultBase64 := bufferToBase64DataUrl resultBuffer None in
     ret (check_mark ++ lit " Successfully compressed PDF (optimization level: "
          ++ optimizeLevel ++ lit ")" ++ pdf_result_label ++ resultBase64))%js
    (fun error => ret (formatError error)).

Definition convertPDFToImages (pdfFile imageFormat dpi : option jsstring) : M jsstring :=
  let pdfFile := default [] pdfFile in
  let imageFormat := default (lit "png") imageFormat in
  let dpi := default (lit "300") dpi in
  try_catch
    (validateRequired (Some pdfFile) (lit "pdfFile") ;;;
     let formData : FormData := [] in
     let buffer := base64ToBuffer pdfFile in
     let formData := append_file formData (lit "fileInput") buffer (lit "input.pdf") in
     let formData := append formData (lit "imageFormat") imageFormat in
     let formData := append formData (lit "dpi") dpi in
     let formData := append formData (lit "colorType") (lit "color") in
     let formData := append formData (lit "singleOrMultiple") (lit "multiple") in
     resultBuffer <- callStirlingAPI (lit "/api/v1/convert/pdf/img") formData ;;
     let resultBase64 := bufferToBase64DataUrl resultBuffer zip in
     ret (check_mark ++ lit " Successfully converted PDF to " ++ imageFormat
          ++ lit " images" ++ zip_result_label ++ resultBase64))%js
    (fun error => ret (formatError error)).

Definition rotatePDF (pdfFile angle pageNumbers : option jsstring) : M jsstring :=
  let pdfFile := default [] pdfFile in
  let angle := default (lit "90") angle in
  let pageNumbers := default (lit "all") pageNumbers in
  try_catch
    (validateRequired (Some pdfFile) (lit "pdfFile") ;;;
     let formData : FormData := [] in
     let buffer := base64ToBuffer pdfFile in
     let formData := append_file formData (lit "fileInput") buffer (lit "input.pdf") in
     let formData := append formData (lit "angle") angle in
     let formData := append formData (lit "pageNumbers") pageNumbers in
     resultBuffer <- callStirlingAPI (lit "/api/v1/general/rotate-pdf") formData ;;
     let resultBase64 := bufferToBase64DataUrl resultBuffer None in
     ret (check_mark ++ lit " Successfully rotated PDF pages by " ++ angle
          ++ degree_sign ++ pdf_result_label ++ resultBase64))%js
    (fun error => ret (formatError error)).

Definition addWatermark (pdfFile watermarkText fontSize opacity rotation : option jsstring)
  : M jsstring :=
  let pdfFile := default [] pdfFile in
  let watermarkText := default [] watermarkText in
  let fontSize := default (lit "30") fontSize in
  let opacity := default (lit "0.5") opacity in
  let rotation := default (lit "45") rotation in
  try_catch
    (validateRequired (Some pdfFile) (lit "pdfFile") ;;;
     validateRequired (Some watermarkText) (lit "watermarkText") ;;;
     let formData : FormData := [] in
     let buffer := base64ToBuffer pdfFile in
     let formData := append_file formData (lit "fileInput") buffer (lit "input.pdf") in
     let formData := append formData (lit "watermarkType") (lit "text") in
     let formData := append formData (lit "watermarkText") watermarkText in
     let formData := append formData (lit "alphabet") (lit "roman") in
     let formData := append formData (lit "fontSize") fontSize in
     let formData := append formData (lit "rotation") rotation in
     let formData := append formData (lit "opacity") opacity in
     let formData := append formData (lit "widthSpacer") (lit "50") in
     let formData := append formData (lit "heightSpacer") (lit "50") in
     let formData := append formData (lit "customColor") (lit "#000000") in
     resultBuffer <- callStirlingAPI (lit "/api/v1/security/add-watermark") formData ;;
     let resultBase64 := bufferToBase64DataUrl resultBuffer None in
     ret (check_mark ++ lit " Successfully added watermark: " ++ dquote
          ++ watermarkText ++ dquote ++ pdf_result_label ++ resultBase64))%js
    (fun error => ret (formatError error)).

Definition removePages (pdfFile pagesToRemove : option jsstring) : M jsstring :=
  let pdfFile := default [] pdfFile in
  let pagesToRemove := default [] pagesToRemove in
  try_catch
    (validateRequired (Some pdfFile) (lit "pdfFile") ;;;
     validateRequired (Some pagesToRemove) (lit "pagesToRemove") ;;;
     let formData : FormData := [] in
     let buffer := base64ToBuffer pdfFile in
     let formData := append_file formData (lit "fileInput") buffer (lit "input.pdf") in
     let formData := append formData (lit "pagesToDelete") pagesToRemove in
     resultBuffer <- callStirlingAPI (lit "/api/v1/general/remove-pages") formData ;;
     let resultBase64 := bufferToBase64DataUrl resultBuffer None in
     ret (check_mark ++ lit " Successfully removed pages: " ++ pagesToRemove
          ++ pdf_result_label ++ resultBase64))%js
    (fun error => ret (formatError error)).

Definition extractImages (pdfFile format : option jsstring) : M jsstring :=
  let pdfFile := default [] pdfFile in
  let format := default (lit "png") format in
  try_catch
    (validateRequired (Some pdfFile) (lit "pdfFile") ;;;
     let formData : FormData := [] in
     let buffer := base64ToBuffer pdfFile in
     let formData := append_file formData (lit "fileInput") buffer (lit "input.pdf") in
     let formData := append formData (lit "format") format in
     resultBuffer <- callStirlingAPI (lit "/api/v1/general/extract-images") formData ;;
     let resultBase64 := bufferToBase64DataUrl resultBuffer zip in
     ret (check_mark ++ lit " Successfully extracted images from PDF"
          ++ zip_result_label ++ resultBase64))%js
    (fun error => ret (formatError error)).

(** [/^data:image\/(\w+);/] *)
Definition image_format : Regex.pattern :=
  Regex.literal "data:image/" ++ [Regex.Rep1 true Regex.word_char]
  ++ Regex.literal ";".

Definition convertImagesToPDF (imageFiles : option (list jsstring))
    (fitOption colorType : option jsstring) : M jsstring :=
  let imageFiles := default [] imageFiles in
  let fitOption := default (lit "fillPage") fitOption in
  let colorType := default (lit "color") colorType in
  try_catch
    ((if (length imageFiles <? 1)%nat
      then throw (Error (lit "At least 1 image file is required"))
      else ret tt) ;;;
     let formData : FormData := [] in
     let formData :=
       forEach imageFiles
         (fun base64Image index formData =>
            let buffer := base64ToBuffer base64Image in
            let formatMatch := Regex.first_group image_format base64Image in
            let ext := default (lit "png") formatMatch in
            append_file formData (lit "fileInput") buffer
              (lit "image" ++ of_nat (index + 1) ++ lit "." ++ ext))
         formData in
     let formData := append formData (lit "fitOption") fitOption in
     let formData := append formData (lit "colorType") colorType in
     let formData := append formData (lit "autoRotate") (lit "false") in
     resultBuffer <- callStirlingAPI (lit "/api/v1/convert/img/pdf") formData ;;
     let resultBase64 := bufferToBase64DataUrl resultBuffer None in
     ret (check_mark ++ lit " Successfully converted " ++ of_nat (length imageFiles)
          ++ lit " images to PDF" ++ pdf_result_label ++ resultBase64))%js
    (fun error => ret (formatError error)).

Definition ocrPDF (pdfFile languages sidecar deskew clean cleanFinal ocrType
    : option jsstring) : M jsstring :=
  let pdfFile := default [] pdfFile in
  let languages := default (lit "eng") languages in
  let sidecar := default (lit "false") sidecar in
  let deskew := default (lit "false") deskew in
  let clean := default (lit "false") clean in
  let cleanFinal := default (lit "false") cleanFinal in
  let ocrType := default (lit "skip-text") ocrType in
  try_catch
    (validateRequired (Some pdfFile) (lit "pdfFile") ;;;
     let formData : FormData := [] in
     let buffer := base64ToBuffer pdfFile in
     let formData := append_file formData (lit "fileInput") buffer (lit "input.pdf") in
     let langArray := map trim (split_on 44 languages) in
     let formData :=
       forEach langArray
         (fun lang _ formData => append formData (lit "languages") lang)
         formData in
     let formData := append formData (lit "sidecar") sidecar in
     let formData := append formData (lit "deskew") deskew in
     let formData := append formData (lit "clean") clean in
     let formData := append formData (lit "cleanFinal") cleanFinal in
     let formData := append formData (lit "ocrType") ocrType in
     resultBuffer <- callStirlingAPI (lit "/api/v1/misc/ocr-pdf") formData ;;
     let resultBase64 := bufferToBase64DataUrl resultBuffer None in
     ret (check_mark ++ lit " Successfully performed OCR on PDF" ++ newline
          ++ lit "Languages: " ++ languages ++ pdf_result_label ++ resultBase64))%js
    (fun error => ret (formatError error)).

(** *** Tool execution *)

(** [request.params] *)
Record CallToolParams := {
  name : jsstring;
  arguments : option (gmap jsstring JsValue)
}.

Record TextContent := { text : jsstring }.

(** The response envelope; [isError] is absent on the success path. *)
Record CallToolResult := {
  content : list TextContent;
  isError : option bool
}.

(** [args?.key] *)
Definition prop (args : option (gmap jsstring JsValue)) (key : string)
  : option JsValue :=
  match args with
  | Some o => o !! lit key
  | None => None
  end.

(** A call of a handler from untyped values: the handler as typed when
    every value is of its parameter's type, and outside its typing
    otherwise. *)
Definition call (handler : jsstring) (values : list JsValue)
    (typed : option (M jsstring)) : M jsstring :=
  match typed with
  | Some run => run
  | None => unchecked_call world handler values
  end.

Definition text_result (t : jsstring) : CallToolResult :=
  {| content := [ {| text := t |} ]; isError := None |}.

Definition callTool (request : CallToolParams) : M CallToolResult :=
  let name := name request in
  let args := arguments request in
  try_catch
    (if decide (name = lit "merge_pdfs") then
       let pdfFiles := or_value (prop args "pdfFiles") (JArray []) in
       let sortType := or_value (prop args "sortType") (JString (lit "orderProvided")) in
       t <- call (lit "mergePDFs") [pdfFiles; sortType]
              (pdfFiles ← as_strings pdfFiles; sortType ← as_string sortType;
               Some (mergePDFs (Some pdfFiles) (Some sortType))) ;;
       ret (text_result t)
     else if decide (name = lit "split_pdf") then
       let pdfFile := or_value (prop args "pdfFile") (JString []) in
       let pageNumbers := or_value (prop args "pageNumbers") (JString []) in
       t <- call (lit "splitPDF") [pdfFile; pageNumbers]
              (pdfFile ← as_string pdfFile; pageNumbers ← as_string pageNumbers;
               Some (splitPDF (Some pdfFile) (Some pageNumbers))) ;;
       ret (text_result t)
     else if decide (name = lit "compress_pdf") then
       let pdfFile := or_value (prop args "pdfFile") (JString []) in
       let optimizeLevel := or_value (prop args "optimizeLevel") (JString (lit "2")) in
       t <- call (lit "compressPDF") [pdfFile; optimizeLevel]
              (pdfFile ← as_string pdfFile; optimizeLevel ← as_string optimizeLevel;
               Some (compressPDF (Some pdfFile) (Some optimizeLevel))) ;;
       ret (text_result t)
     else if decide (name = lit "convert_pdf_to_images") then
       let pdfFile := or_value (prop args "pdfFile") (JString []) in
       let imageFormat := or_value (prop args "imageFormat") (JString (lit "png")) in
       let dpi := or_value (prop args "dpi") (JString (lit "300")) in
       t <- call (lit "convertPDFToImages") [pdfFile; imageFormat; dpi]
              (pdfFile ← as_string pdfFile; imageFormat ← as_string imageFormat; dpi ← as_string dpi;
               Some (convertPDFToImages (Some pdfFile) (Some imageFormat) (Some dpi))) ;;
       ret (text_result t)
     else if decide (name = lit "rotate_pdf") then
       let pdfFile := or_value (prop args "pdfFile") (JString []) in
       let angle := or_value (prop args "angle") (JString (lit "90")) in
       let pageNumbers := or_value (prop args "pageNumbers") (JString (lit "all")) in
       t <- call (lit "rotatePDF") [pdfFile; angle; pageNumbers]
              (pdfFile ← as_string pdfFile; angle ← as_string angle; pageNumbers ← as_string pageNumbers;
               Some (rotatePDF (Some pdfFile) (Some angle) (Some pageNumbers))) ;;
       ret (text_result t)
     else if decide (name = lit "add_watermark") then
       let pdfFile := or_value (prop args "pdfFile") (JString []) in
       let watermarkText := or_value (prop args "watermarkText") (JString []) in
       let fontSize := or_value (prop args "fontSize") (JString (lit "30")) in
       let opacity := or_value (prop args "opacity") (JString (lit "0.5")) in
       let rotation := or_value (prop args "rotation") (JString (lit "45")) in
       t <- call (lit "addWatermark") [pdfFile; watermarkText; fontSize; opacity; rotation]
              (pdfFile ← as_string pdfFile; watermarkText ← as_string watermarkText; fontSize ← as_string fontSize; opacity ← as_string opacity; rotation ← as_string rotation;
               Some (addWatermark (Some pdfFile) (Some watermarkText) (Some fontSize) (Some opacity) (Some rotation))) ;;
       ret (text_result t)
     else if decide (name = lit "remove_pages") then
       let pdfFile := or_value (prop args "pdfFile") (JString []) in
       let pagesToRemove := or_value (prop args "pagesToRemove") (JString []) in
       t <- call (lit "removePages") [pdfFile; pagesToRemove]
              (pdfFile ← as_string pdfFile; pagesToRemove ← as_string pagesToRemove;
               Some (removePages (Some pdfFile) (Some pagesToRemove))) ;;
       ret (text_result t)
     else if decide (name = lit "extract_images") then
       let pdfFile := or_value (prop args "pdfFile") (JString []) in
       let format := or_value (prop args "format") (JString (lit "png")) in
       t <- call (lit "extractImages") [pdfFile; format]
              (pdfFile ← as_string pdfFile; format ← as_string format;
               Some (extractImages (Some pdfFile) (Some format))) ;;
       ret (text_result t)
     else if decide (name = lit "convert_images_to_pdf") then
       let imageFiles := or_value (prop args "imageFiles") (JArray []) in
       let fitOption := or_value (prop args "fitOption") (JString (lit "fillPage")) in
       let colorType := or_value (prop args "colorType") (JString (lit "color")) in
       t <- call (lit "convertImagesToPDF") [imageFiles; fitOption; colorType]
              (imageFiles ← as_strings imageFiles; fitOption ← as_string fitOption; colorType ← as_string colorType;
               Some (convertImagesToPDF (Some imageFiles) (Some fitOption) (Some colorType))) ;;
       ret (text_result t)
     else if decide (name = lit "ocr_pdf") then
       let pdfFile := or_value (prop args "pdfFile") (JString []) in
       let languages := or_value (prop args "languages") (JString (lit "eng")) in
       let sidecar := or_value (prop args "sidecar") (JString (lit "false")) in
       let deskew := or_value (prop args "deskew") (JString (lit "false")) in
       let clean := or_value (prop args "clean") (JString (lit "false")) in
       let cleanFinal := or_value (prop args "cleanFinal") (JString (lit "false")) in
       let ocrType := or_value (prop args "ocrType") (JString (lit "skip-text")) in
       t <- call (lit "ocrPDF") [pdfFile; languages; sidecar; deskew; clean; cleanFinal; ocrType]
              (pdfFile ← as_string pdfFile; languages ← as_string languages; sidecar ← as_string sidecar; deskew ← as_string deskew; clean ← as_string clean; cleanFinal ← as_string cleanFinal; ocrType ← as_string ocrType;
               Some (ocrPDF (Some pdfFile) (Some languages) (Some sidecar) (Some deskew) (Some clean) (Some cleanFinal) (Some ocrType))) ;;
       ret (text_result t)
     else throw (Error (lit "Unknown tool: " ++ name)))%js
    (fun error =>
       ret {| content := [ {| text := formatError error |} ];
              isError := Some true |}).

(** The names of [TOOLS], one per handler. *)
Definition tool_names : list jsstring :=
  map lit [ "merge_pdfs"; "split_pdf"; "compress_pdf"; "convert_pdf_to_images";
            "rotate_pdf"; "add_watermark"; "remove_pages"; "extract_images";
            "convert_images_to_pdf"; "ocr_pdf" ]%string.

End Server.

(** ** Handlers, uniformly

    One constructor per tool implementation, carrying the arguments of
    its signature; an absent argument is [None]. *)

Inductive Invocation :=
| MergePDFs (pdfFiles : option (list jsstring)) (sortType : option jsstring)
| SplitPDF (pdfFile pageNumbers : option jsstring)
| CompressPDF (pdfFile optimizeLevel : option jsstring)
| ConvertPDFToImages (pdfFile imageFormat dpi : option jsstring)
| RotatePDF (pdfFile angle pageNumbers : option jsstring)
| AddWatermark (pdfFile watermarkText fontSize opacity rotation : option jsstring)
| RemovePages (pdfFile pagesToRemove : option jsstring)
| ExtractImages (pdfFile format : option jsstring)
| ConvertImagesToPDF (imageFiles : option (list jsstring))
    (fitOption colorType : option jsstring)
| OcrPDF (pdfFile languages sidecar deskew clean cleanFinal ocrType : option jsstring).

Definition invoke (world : World) (c : Invocation) : M jsstring :=
  match c with
  | MergePDFs f s => mergePDFs world f s
  | SplitPDF f p => splitPDF world f p
  | CompressPDF f o => compressPDF world f o
  | ConvertPDFToImages f i d => convertPDFToImages world f i d
  | RotatePDF f a p => rotatePDF world f a p
  | AddWatermark f t s o r => addWatermark world f t s o r
  | RemovePages f p => removePages world f p
  | ExtractImages f i => extractImages world f i
  | ConvertImagesToPDF f o c => convertImagesToPDF world f o c
  | OcrPDF f l s d c cf t => ocrPDF world f l s d c cf t
  end.

(** The required string arguments of a handler with the values supplied,
    in the order in which the handler validates them. *)
Definition required_strings (c : Invocation) : list (jsstring * option jsstring) :=
  match c with
  | MergePDFs _ _ | ConvertImagesToPDF _ _ _ => []
  | SplitPDF f p => [(lit "pdfFile", f); (lit "pageNumbers", p)]
  | AddWatermark f t _ _ _ => [(lit "pdfFile", f); (lit "watermarkText", t)]
  | RemovePages f p => [(lit "pdfFile", f); (lit "pagesToRemove", p)]
  | CompressPDF f _ | ConvertPDFToImages f _ _ | RotatePDF f _ _
  | ExtractImages f _ | OcrPDF f _ _ _ _ _ _ => [(lit "pdfFile", f)]
  end.

(** Absent, empty, or made of white space only. *)
Definition blank (v : option jsstring) : bool :=
  match v with
  | None => true
  | Some s => forallb is_space s
  end.

(** The arguments pass the handler's own checks: no required string
    argument is blank, and a list of files has the length the handler asks
    for. *)
Definition accepted (c : Invocation) : bool :=
  forallb (fun fv => negb (blank (snd fv))) (required_strings c)
  && match c with
     | MergePDFs files _ => (2 <=? length (default [] files))%nat
     | ConvertImagesToPDF files _ _ => (1 <=? length (default [] files))%nat
     | _ => true
     end.

(** The handlers whose result is an archive of several files. *)
Definition yields_archive (c : Invocation) : bool :=
  match c with
  | SplitPDF _ _ | ConvertPDFToImages _ _ _ | ExtractImages _ _ => true
  | _ => false
  end.

Definition output_media_type (c : Invocation) : jsstring :=
  if yields_archive c then lit "application/zip" else lit "application/pdf".

(** Strict base64 as RFC 4648 reads it: groups of four characters of the
    standard alphabet, the last one padded with one or two [=]. *)
Definition standard_char (c : code_unit) : bool :=
  ((65 <=? c) && (c <=? 90)) || ((97 <=? c) && (c <=? 122))
  || ((48 <=? c) && (c <=? 57)) || (c =? 43) || (c =? 47).

Fixpoint valid_base64 (s : jsstring) : bool :=
  match s with
  | [] => true
  | [a; b; c; d] =>
      standard_char a && standard_char b
      && ((standard_char c && (standard_char d || (d =? Buffer.pad)))
          || ((c =? Buffer.pad) && (d =? Buffer.pad)))
  | a :: b :: c :: d :: r =>
      standard_char a && standard_char b && standard_char c && standard_char d
      && valid_base64 r
  | _ => false
  end.

(** The text the lenient decoder reads: up to the first code unit whose
    low byte is [=]. *)
Fixpoint until_pad (s : jsstring) : jsstring :=
  match s with
  | [] => []
  | c :: r => if Buffer.low_byte c =? Buffer.pad then [] else c :: until_pad r
  end.

(** The low byte of the code unit is a character of the alphabet. *)
Definition in_alphabet (c : code_unit) : bool :=
  match Buffer.unbase64 c with Some _ => true | None => false end.

(** The request [callStirlingAPI] sends for an endpoint and a body. *)
Definition request_for (world : World) (endpoint : jsstring) (formData : FormData)
  : Request :=
  {| url := STIRLING_PDF_URL world ++ endpoint;
     body := formData;
     headers :=
       if is_empty (STIRLING_PDF_API_KEY world) then getHeaders world formData
       else <[lit "X-API-KEY" := STIRLING_PDF_API_KEY world]> (getHeaders world formData);
     timeout := 120000 |}.

(** The response body as text; an absent body reads as the empty text. *)
Definition body_text (r : AxiosResponse) : jsstring :=
  match data r with
  | Some d => Buffer.toUtf8String d
  | None => []
  end.

(** What follows the status in a failure message: the body when it has
    text, else the reason phrase, else a fixed placeholder. *)
Definition failure_detail (r : AxiosResponse) : jsstring :=
  or_else (body_text r) (or_else (statusText r) (lit "Unknown Error")).

(** The message [callStirlingAPI] builds from an upstream response. *)
Definition upstream_message (r : AxiosResponse) : jsstring :=
  lit "Stirling PDF API returned "
  ++ (if status r =? 0 then lit "unknown" else of_N (status r))
  ++ lit ": " ++ failure_detail r.

(** What a handler returns once its body is assembled: the success text
    around the data URL, or the formatted failure of the call. *)
Definition deliver (outcome : Completion Buffer.t * list Request)
    (success : Buffer.t -> jsstring) : Completion jsstring * list Request :=
  match outcome with
  | (Returned resultBuffer, log) => (Returned (success resultBuffer), log)
  | (Threw error, log) => (Returned (formatError error), log)
  end.

(** The error [callStirlingAPI] throws for a rejected request. *)
Definition api_error (error : Thrown) : Thrown :=
  match error with
  | AxiosError _ (Some r) => Error (upstream_message r)
  | AxiosError _ None =>
      Error (lit "Stirling PDF API returned unknown: Unknown Error")
  | _ => error
  end.

(** ** Notions used in the statements *)

(** Bytes written as text, for examples. *)
Definition bytes (s : string) : Buffer.t := list_byte_of_string s.

(** A media type that the prefix pattern recognises: non-empty and free
    of semicolons, hence without parameters. *)
Definition plain_media_type (m : jsstring) : bool :=
  negb (is_empty m) && forallb Regex.not_semicolon m.

(** The extension the images handler gives an input: the format of a
    leading [data:image/<fmt>;], where [<fmt>] is a non-empty run of word
    characters, and [png] when the input has no such prefix. *)
Definition extension_of (input ext : jsstring) : Prop :=
  (exists fmt rest,
      fmt <> [] /\ forallb Regex.word_char fmt = true
      /\ input = lit "data:image/" ++ fmt ++ lit ";" ++ rest /\ ext = fmt)
  \/ ((forall fmt rest,
          fmt <> [] -> forallb Regex.word_char fmt = true ->
          input <> lit "data:image/" ++ fmt ++ lit ";" ++ rest)
      /\ ext = lit "png").

(** A remote side that settles every request the same way, without
    configuration in the environment. *)
Definition world_answering (s : Settled) : World :=
  {| env_STIRLING_PDF_URL := None;
     env_STIRLING_PDF_API_KEY := None;
     getHeaders := fun _ => ∅;
     axios_post := fun _ => s;
     unchecked_call := fun _ _ => throw (Error []) |}.

(** An upstream answer used in the examples. *)
Definition internal_error_boom : AxiosResponse :=
  {| status := 500; statusText := lit "Internal Server Error";
     data := Some (bytes "boom") |}.

Definition failing_upstream : World :=
  world_answering
    (Rejected (AxiosError (lit "Request failed with status code 500")
                          (Some internal_error_boom))).

Definition refused_connection : World :=
  world_answering
    (Rejected (AxiosError (lit "connect ECONNREFUSED 127.0.0.1:8080") None)).

(** The numbers below a bound, for checks by exhaustive evaluation. *)
Definition below (n : nat) : list N := map N.of_nat (seq 0 n).

(** ** The tool catalog

    [TOOLS] as the source declares it: every tool with its description
    and its input schema, whose properties are strings (some with an
    enumeration of values) or arrays of strings. *)

Module Schema.

Inductive PropertyType :=
| StringType
| ArrayOfStrings.

Record Property := {
  type : PropertyType;
  enum : option (list jsstring);
  description : jsstring
}.

End Schema.

Module Catalog.
Import Schema.

Record Tool := {
  name : jsstring;
  description : jsstring;
  properties : list (jsstring * Property);
  required : list jsstring
}.

Definition TOOLS : list Tool :=
  [ {| name := lit "merge_pdfs";
      description := lit "Merge multiple PDF files into a single PDF document";
      properties :=
        [
          (lit "pdfFiles",
           {| Schema.type := ArrayOfStrings;
              Schema.enum := None;
              Schema.description :=
                lit "Array of PDF files as base64 data URLs (at least 2 files)" |});
          (lit "sortType",
           {| Schema.type := StringType;
              Schema.enum := Some [lit "orderProvided"; lit "alphabetical"; lit "reverseAlphabetical"];
              Schema.description :=
                lit "How to sort files before merging (default: orderProvided)" |}) ];
      required := [lit "pdfFiles"] |};
    {| name := lit "split_pdf";
      description := lit "Split a PDF document into multiple files at specified page numbers";
      properties :=
        [
          (lit "pdfFile",
           {| Schema.type := StringType;
              Schema.enum := None;
              Schema.description :=
                lit "PDF file as base64 data URL" |});
          (lit "pageNumbers",
           {| Schema.type := StringType;
              Schema.enum := None;
              Schema.description :=
                lit "Comma-separated page numbers to split at (e.g., '2,4,6')" |}) ];
      required := [lit "pdfFile"; lit "pageNumbers"] |};
    {| name := lit "compress_pdf";
      description := lit "Compress a PDF file to reduce its size";
      properties :=
        [
          (lit "pdfFile",
           {| Schema.type := StringType;
              Schema.enum := None;
              Schema.description :=
                lit "PDF file as base64 data URL" |});
          (lit "optimizeLevel",
           {| Schema.type := StringType;
              Schema.enum := Some [lit "0"; lit "1"; lit "2"; lit "3"];
              Schema.description :=
                lit "Optimization level: 0=minimal, 1=low, 2=medium, 3=high (default: 2)" |}) ];
      required := [lit "pdfFile"] |};
    {| name := lit "convert_pdf_to_images";
      description := lit "Convert PDF pages to image files";
      properties :=
        [
          (lit "pdfFile",
           {| Schema.type := StringType;
              Schema.enum := None;
              Schema.description :=
                lit "PDF file as base64 data URL" |});
          (lit "imageFormat",
           {| Schema.type := StringType;
              Schema.enum := Some [lit "png"; lit "jpg"; lit "gif"];
              Schema.description :=
                lit "Output image format (default: png)" |});
          (lit "dpi",
           {| Schema.type := StringType;
              Schema.enum := None;
              Schema.description :=
                lit "DPI for output images (default: 300)" |}) ];
      required := [lit "pdfFile"] |};
    {| name := lit "rotate_pdf";
      description := lit "Rotate pages in a PDF document";
      properties :=
        [
          (lit "pdfFile",
           {| Schema.type := StringType;
              Schema.enum := None;
              Schema.description :=
                lit "PDF file as base64 data URL" |});
          (lit "angle",
           {| Schema.type := StringType;
              Schema.enum := Some [lit "90"; lit "180"; lit "270"];
              Schema.description :=
                lit "Rotation angle in degrees (default: 90)" |});
          (lit "pageNumbers",
           {| Schema.type := StringType;
              Schema.enum := None;
              Schema.description :=
                lit "Page numbers to rotate (comma-separated) or 'all' (default: all)" |}) ];
      required := [lit "pdfFile"] |};
    {| name := lit "add_watermark";
      description := lit "Add a text watermark to a PDF document";
      properties :=
        [
          (lit "pdfFile",
           {| Schema.type := StringType;
              Schema.enum := None;
              Schema.description :=
                lit "PDF file as base64 data URL" |});
          (lit "watermarkText",
           {| Schema.type := StringType;
              Schema.enum := None;
              Schema.description :=
                lit "Text to use as watermark" |});
          (lit "fontSize",
           {| Schema.type := StringType;
              Schema.enum := None;
              Schema.description :=
                lit "Font size for watermark (default: 30)" |});
          (lit "opacity",
           {| Schema.type := StringType;
              Schema.enum := None;
              Schema.description :=
                lit "Opacity of watermark 0.0-1.0 (default: 0.5)" |});
          (lit "rotation",
           {| Schema.type := StringType;
              Schema.enum := None;
              Schema.description :=
                lit "Rotation angle of watermark in degrees (default: 45)" |}) ];
      required := [lit "pdfFile"; lit "watermarkText"] |};
    {| name := lit "remove_pages";
      description := lit "Remove specified pages from a PDF document";
      properties :=
        [
          (lit "pdfFile",
           {| Schema.type := StringType;
              Schema.enum := None;
              Schema.description :=
                lit "PDF file as base64 data URL" |});
          (lit "pagesToRemove",
           {| Schema.type := StringType;
              Schema.enum := None;
              Schema.description :=
                lit "Comma-separated page numbers to remove (e.g., '1,3,5-7')" |}) ];
      required := [lit "pdfFile"; lit "pagesToRemove"] |};
    {| name := lit "extract_images";
      description := lit "Extract all images from a PDF document";
      properties :=
        [
          (lit "pdfFile",
           {| Schema.type := StringType;
              Schema.enum := None;
              Schema.description :=
                lit "PDF file as base64 data URL" |});
          (lit "format",
           {| Schema.type := StringType;
              Schema.enum := Some [lit "png"; lit "jpg"; lit "gif"];
              Schema.description :=
                lit "Output image format (default: png)" |}) ];
      required := [lit "pdfFile"] |};
    {| name := lit "convert_images_to_pdf";
      description := lit "Convert one or more images to a PDF document";
      properties :=
        [
          (lit "imageFiles",
           {| Schema.type := ArrayOfStrings;
              Schema.enum := None;
              Schema.description :=
                lit "Array of image files as base64 data URLs" |});
          (lit "fitOption",
           {| Schema.type := StringType;
              Schema.enum := Some [lit "fillPage"; lit "fitDocumentToImage"; lit "maintainAspectRatio"];
              Schema.description :=
                lit "How to fit images on pages (default: fillPage)" |});
          (lit "colorType",
           {| Schema.type := StringType;
              Schema.enum := Some [lit "color"; lit "greyscale"; lit "blackwhite"];
              Schema.description :=
                lit "Color mode for output (default: color)" |}) ];
      required := [lit "imageFiles"] |};
    {| name := lit "ocr_pdf";
      description := lit "Perform OCR on a PDF to make it searchable";
      properties :=
        [
          (lit "pdfFile",
           {| Schema.type := StringType;
              Schema.enum := None;
              Schema.description :=
                lit "PDF file as base64 data URL" |});
          (lit "languages",
           {| Schema.type := StringType;
              Schema.enum := None;
              Schema.description :=
                lit "Comma-separated language codes (e.g., 'eng', 'eng,spa,fra') (default: eng)" |});
          (lit "sidecar",
           {| Schema.type := StringType;
              Schema.enum := Some [lit "true"; lit "false"];
              Schema.description :=
                lit "Generate sidecar text file (default: false)" |});
          (lit "deskew",
           {| Schema.type := StringType;
              Schema.enum := Some [lit "true"; lit "false"];
              Schema.description :=
                lit "Deskew pages before OCR (default: false)" |});
          (lit "clean",
           {| Schema.type := StringType;
              Schema.enum := Some [lit "true"; lit "false"];
              Schema.description :=
                lit "Clean pages before OCR (default: false)" |});
          (lit "cleanFinal",
           {| Schema.type := StringType;
              Schema.enum := Some [lit "true"; lit "false"];
              Schema.description :=
                lit "Clean final output (default: false)" |});
          (lit "ocrType",
           {| Schema.type := StringType;
              Schema.enum := Some [lit "skip-text"; lit "force-ocr"; lit "Normal"];
              Schema.description :=
                lit "OCR processing mode (default: skip-text)" |}) ];
      required := [lit "pdfFile"] |} ].

(** The handler of [ListToolsRequestSchema]: the catalog itself. *)
Definition listTools : list Tool := TOOLS.

(** The property names that the schema of a tool declares; none for a
    name that is not in the catalog. *)
Definition declared (n : jsstring) : list jsstring :=
  match List.find (fun t => bool_decide (name t = n)) TOOLS with
  | Some t => map fst (properties t)
  | None => []
  end.

(** The same properties with the types that the schema gives them. *)
Definition declared_types (n : jsstring) : list (jsstring * PropertyType) :=
  match List.find (fun t => bool_decide (name t = n)) TOOLS with
  | Some t => map (fun kp => (kp.1, type kp.2)) (properties t)
  | None => []
  end.

End Catalog.

(** ** Notions used in the further statements *)

(** [pieces.join(sep)] *)
Fixpoint join (sep : code_unit) (pieces : list jsstring) : jsstring :=
  match pieces with
  | [] => []
  | [p] => p
  | p :: rest => p ++ sep :: join sep rest
  end.

Definition is_field (p : Part) : bool := negb (is_file p).

Definition part_name (p : Part) : jsstring :=
  match p with
  | Field n _ | File n _ _ => n
  end.

(** The bytes of the binary parts of a body, in order. *)
Definition attached (formData : FormData) : list Buffer.t :=
  flat_map (fun p => match p with File _ content _ => [content] | Field _ _ => [] end)
           formData.

(** The values of the textual parts of a body with a given name. *)
Definition field_values (n : jsstring) (formData : FormData) : list jsstring :=
  flat_map (fun p => match p with
                     | Field m v => if bool_decide (m = n) then [v] else []
                     | File _ _ _ => []
                     end) formData.

(** The documents or images an invocation passes in, after the defaults
    of the handler's signature. *)
Definition input_files (c : Invocation) : list jsstring :=
  match c with
  | MergePDFs files _ | ConvertImagesToPDF files _ _ => default [] files
  | SplitPDF f _ | CompressPDF f _ | ConvertPDFToImages f _ _ | RotatePDF f _ _
  | AddWatermark f _ _ _ _ | RemovePages f _ | ExtractImages f _
  | OcrPDF f _ _ _ _ _ _ => [default [] f]
  end.

(** An environment variable that is set to a non-empty text. *)
Definition configured (v : option jsstring) : option jsstring :=
  match v with
  | Some (c :: s) => Some (c :: s)
  | _ => None
  end.

(** An argument as the dispatcher sees it.  An absent property and a
    falsy value (the empty string, [null], [false], a zero, a NaN) count
    as not given; a truthy value is given when it is of the expected type;
    for a truthy value of another type there is no reading. *)
Definition given_string (v : option JsValue) : option (option jsstring) :=
  match v with
  | None => Some None
  | Some x => if truthy x then s ← as_string x; Some (Some s) else Some None
  end.

Definition given_array (v : option JsValue) : option (option (list jsstring)) :=
  match v with
  | None => Some None
  | Some x => if truthy x then l ← as_strings x; Some (Some l) else Some None
  end.

Definition string_argument (args : option (gmap jsstring JsValue)) (key : string)
  : option (option jsstring) := given_string (prop args key).

Definition array_argument (args : option (gmap jsstring JsValue)) (key : string)
  : option (option (list jsstring)) := given_array (prop args key).

(** The handler call that a request for a catalog tool stands for, with
    every argument that is not given left absent.  There is none for a
    name outside the catalog, and none when an argument has no reading. *)
Definition requested (request : CallToolParams) : option Invocation :=
  let n := name request in
  let args := arguments request in
  if decide (n = lit "merge_pdfs") then
    pdfFiles ← array_argument args "pdfFiles";
    sortType ← string_argument args "sortType";
    Some (MergePDFs pdfFiles sortType)
  else if decide (n = lit "split_pdf") then
    pdfFile ← string_argument args "pdfFile";
    pageNumbers ← string_argument args "pageNumbers";
    Some (SplitPDF pdfFile pageNumbers)
  else if decide (n = lit "compress_pdf") then
    pdfFile ← string_argument args "pdfFile";
    optimizeLevel ← string_argument args "optimizeLevel";
    Some (CompressPDF pdfFile optimizeLevel)
  else if decide (n = lit "convert_pdf_to_images") then
    pdfFile ← string_argument args "pdfFile";
    imageFormat ← string_argument args "imageFormat";
    dpi ← string_argument args "dpi";
    Some (ConvertPDFToImages pdfFile imageFormat dpi)
  else if decide (n = lit "rotate_pdf") then
    pdfFile ← string_argument args "pdfFile";
    angle ← string_argument args "angle";
    pageNumbers ← string_argument args "pageNumbers";
    Some (RotatePDF pdfFile angle pageNumbers)
  else if decide (n = lit "add_watermark") then
    pdfFile ← string_argument args "pdfFile";
    watermarkText ← string_argument args "watermarkText";
    fontSize ← string_argument args "fontSize";
    opacity ← string_argument args "opacity";
    rotation ← string_argument args "rotation";
    Some (AddWatermark pdfFile watermarkText fontSize opacity rotation)
  else if decide (n = lit "remove_pages") then
    pdfFile ← string_argument args "pdfFile";
    pagesToRemove ← string_argument args "pagesToRemove";
    Some (RemovePages pdfFile pagesToRemove)
  else if decide (n = lit "extract_images") then
    pdfFile ← string_argument args "pdfFile";
    format ← string_argument args "format";
    Some (ExtractImages pdfFile format)
  else if decide (n = lit "convert_images_to_pdf") then
    imageFiles ← array_argument args "imageFiles";
    fitOption ← string_argument args "fitOption";
    colorType ← string_argument args "colorType";
    Some (ConvertImagesToPDF imageFiles fitOption colorType)
  else if decide (n = lit "ocr_pdf") then
    pdfFile ← string_argument args "pdfFile";
    languages ← string_argument args "languages";
    sidecar ← string_argument args "sidecar";
    deskew ← string_argument args "deskew";
    clean ← string_argument args "clean";
    cleanFinal ← string_argument args "cleanFinal";
    ocrType ← string_argument args "ocrType";
    Some (OcrPDF pdfFile languages sidecar deskew clean cleanFinal ocrType)
  else None.

(** The arguments of a request are well typed when every property that
    the catalog declares for the tool is absent, falsy, or a value of the
    declared type.  Nothing is asked of a request for a name outside the
    catalog, nor of a property that the catalog does not declare. *)
Definition admits (t : Schema.PropertyType) (v : option JsValue) : bool :=
  match v with
  | None => true
  | Some x =>
      negb (truthy x)
      || match t with
         | Schema.StringType => bool_decide (is_Some (as_string x))
         | Schema.ArrayOfStrings => bool_decide (is_Some (as_strings x))
         end
  end.

Definition well_typed (request : CallToolParams) : bool :=
  forallb (fun kt : jsstring * Schema.PropertyType =>
             admits kt.2 (arguments request ≫= (.!! kt.1)))
          (Catalog.declared_types (name request)).

(** The success envelope around what a handler returned. *)
Definition wrap (outcome : Completion jsstring * list Request)
  : Completion CallToolResult * list Request :=
  match outcome with
  | (Returned t, log) => (Returned (text_result t), log)
  | (Threw error, log) =>
      (Returned {| content := [ {| text := formatError error |} ];
                   isError := Some true |}, log)
  end.

(** The binary parts a handler builds from its inputs. *)
Definition attachments (c : Invocation) : FormData :=
  match c with
  | MergePDFs files _ =>
      imap (fun i f => File (lit "fileInput") (base64ToBuffer f)
                            (lit "file" ++ of_nat (i + 1) ++ lit ".pdf"))
           (default [] files)
  | ConvertImagesToPDF files _ _ =>
      imap (fun i f => File (lit "fileInput") (base64ToBuffer f)
                            (lit "image" ++ of_nat (i + 1) ++ lit "."
                             ++ default (lit "png") (Regex.first_group image_format f)))
           (default [] files)
  | SplitPDF f _ | CompressPDF f _ | ConvertPDFToImages f _ _ | RotatePDF f _ _
  | AddWatermark f _ _ _ _ | RemovePages f _ | ExtractImages f _
  | OcrPDF f _ _ _ _ _ _ =>
      [File (lit "fileInput") (base64ToBuffer (default [] f)) (lit "input.pdf")]
  end.

(** Worlds and requests of the further examples. *)
Definition keyed_world : World :=
  {| env_STIRLING_PDF_URL := None;
     env_STIRLING_PDF_API_KEY := Some (lit "s3cret");
     getHeaders := fun _ => {[ lit "content-type" := lit "multipart/form-data" ]};
     axios_post := fun _ => Resolved [];
     unchecked_call := fun _ _ => throw (Error []) |}.

Definition three_documents_request : Request :=
  request_for (world_answering (Resolved [])) (lit "/api/v1/general/merge-pdfs")
    [ File (lit "fileInput") (bytes "ABC") (lit "file1.pdf");
      File (lit "fileInput") (bytes "A") (lit "file2.pdf");
      File (lit "fileInput") (bytes "AB") (lit "file3.pdf");
      Field (lit "sortType") (lit "orderProvided") ].

(** The required text arguments other than the document, with the name
    of the multipart field that carries each of them. *)
Definition forwarded_text (c : Invocation) : list (jsstring * jsstring) :=
  match c with
  | SplitPDF _ pageNumbers => [(lit "pageNumbers", default [] pageNumbers)]
  | AddWatermark _ watermarkText _ _ _ =>
      [(lit "watermarkText", default [] watermarkText)]
  | RemovePages _ pagesToRemove => [(lit "pagesToDelete", default [] pagesToRemove)]
  | _ => []
  end.

(** * Properties *)

(** ** Base64: decoding inverts encoding *)

Module Base64Facts.
Import Buffer.

Lemma below_In n v : v < N.of_nat n -> In v (below n).
Proof.
  intros Hv. unfold below. apply in_map_iff. exists (N.to_nat v). split.
  - apply N2Nat.id.
  - apply in_seq. lia.
Qed.

Lemma check_below n (P : N -> bool) :
  forallb P (below n) = true -> forall v, v < N.of_nat n -> P v = true.
Proof.
  intros H v Hv. rewrite forallb_forall in H. apply H, below_In, Hv.
Qed.

Lemma check_byte (P : N -> bool) :
  forallb P (below 256) = true -> forall x : byte, P (Byte.to_N x) = true.
Proof.
  intros H x. apply (check_below 256 P H).
  pose proof (Byte.to_N_bounded x). lia.
Qed.

Lemma check_byte2 (P : N -> N -> bool) :
  forallb (fun a => forallb (P a) (below 256)) (below 256) = true ->
  forall x y : byte, P (Byte.to_N x) (Byte.to_N y) = true.
Proof.
  intros H x y.
  apply (check_byte (P (Byte.to_N x))).
  apply (check_byte (fun a => forallb (P a) (below 256)) H).
Qed.

Lemma byte_of_to_N x : byte_of_N (Byte.to_N x) = x.
Proof.
  unfold byte_of_N. pose proof (Byte.to_N_bounded x).
  rewrite N.mod_small by lia.
  now rewrite Byte.of_to_N.
Qed.

Lemma unbase64_enc v : v < 64 -> unbase64 (enc v) = Some v.
Proof.
  intros Hv.
  pose proof (check_below 64
    (fun v => match unbase64 (enc v) with
              | Some u => u =? v
              | None => false
              end)
    ltac:(vm_compute; reflexivity) v Hv) as H.
  simpl in H. destruct (unbase64 (enc v)) as [u|]; [|discriminate].
  apply N.eqb_eq in H. now subst.
Qed.

Lemma hi6_bound x : hi6 (Byte.to_N x) < 64.
Proof.
  apply N.ltb_lt. apply (check_byte (fun a => hi6 a <? 64)). vm_compute. reflexivity.
Qed.

Lemma lo6_bound x : lo6 (Byte.to_N x) < 64.
Proof.
  apply N.ltb_lt. apply (check_byte (fun a => lo6 a <? 64)). vm_compute. reflexivity.
Qed.

Lemma mid1_bound x y : mid1 (Byte.to_N x) (Byte.to_N y) < 64.
Proof.
  apply N.ltb_lt. apply (check_byte2 (fun a b => mid1 a b <? 64)).
  vm_compute. reflexivity.
Qed.

Lemma mid2_bound x y : mid2 (Byte.to_N x) (Byte.to_N y) < 64.
Proof.
  apply N.ltb_lt. apply (check_byte2 (fun a b => mid2 a b <? 64)).
  vm_compute. reflexivity.
Qed.

Lemma mid1_zero_bound x : N.shiftl (N.land (Byte.to_N x) 3) 4 < 64.
Proof.
  apply N.ltb_lt.
  apply (check_byte (fun a => N.shiftl (N.land a 3) 4 <? 64)). vm_compute. reflexivity.
Qed.

Lemma mid2_zero_bound x : N.shiftl (N.land (Byte.to_N x) 15) 2 < 64.
Proof.
  apply N.ltb_lt.
  apply (check_byte (fun a => N.shiftl (N.land a 15) 2 <? 64)). vm_compute. reflexivity.
Qed.

(** Each decoded byte depends on two neighbouring character values. *)
Lemma dec1_enc x y : dec1 (hi6 (Byte.to_N x)) (mid1 (Byte.to_N x) (Byte.to_N y)) = x.
Proof.
  rewrite <- (byte_of_to_N x) at 3. unfold dec1. f_equal. apply N.eqb_eq.
  apply (check_byte2 (fun a b =>
    N.lor (N.shiftl (N.land (hi6 a) 0x3F) 2) (N.shiftr (N.land (mid1 a b) 0x30) 4) =? a)).
  vm_compute. reflexivity.
Qed.

Lemma dec1_enc_last x :
  dec1 (hi6 (Byte.to_N x)) (N.shiftl (N.land (Byte.to_N x) 3) 4) = x.
Proof.
  rewrite <- (byte_of_to_N x) at 3. unfold dec1. f_equal. apply N.eqb_eq.
  apply (check_byte (fun a =>
    N.lor (N.shiftl (N.land (hi6 a) 0x3F) 2)
          (N.shiftr (N.land (N.shiftl (N.land a 3) 4) 0x30) 4) =? a)).
  vm_compute. reflexivity.
Qed.

Lemma mid1_low x y : N.land (mid1 (Byte.to_N x) (Byte.to_N y)) 0x0F = N.shiftr (Byte.to_N y) 4.
Proof.
  apply N.eqb_eq.
  apply (check_byte2 (fun a b => N.land (mid1 a b) 0x0F =? N.shiftr b 4)).
  vm_compute. reflexivity.
Qed.

Lemma mid2_high y z :
  N.shiftr (N.land (mid2 (Byte.to_N y) (Byte.to_N z)) 0x3C) 2 = N.land (Byte.to_N y) 15.
Proof.
  apply N.eqb_eq.
  apply (check_byte2 (fun b c => N.shiftr (N.land (mid2 b c) 0x3C) 2 =? N.land b 15)).
  vm_compute. reflexivity.
Qed.

Lemma mid2_low y z : N.land (mid2 (Byte.to_N y) (Byte.to_N z)) 0x03 = N.shiftr (Byte.to_N z) 6.
Proof.
  apply N.eqb_eq.
  apply (check_byte2 (fun b c => N.land (mid2 b c) 0x03 =? N.shiftr c 6)).
  vm_compute. reflexivity.
Qed.

Lemma glue_nibbles y :
  N.lor (N.shiftl (N.shiftr (Byte.to_N y) 4) 4) (N.land (Byte.to_N y) 15) = Byte.to_N y.
Proof.
  apply N.eqb_eq.
  apply (check_byte (fun b => N.lor (N.shiftl (N.shiftr b 4) 4) (N.land b 15) =? b)).
  vm_compute. reflexivity.
Qed.

Lemma glue_low6 z :
  N.lor (N.shiftl (N.shiftr (Byte.to_N z) 6) 6) (N.land (lo6 (Byte.to_N z)) 0x3F)
  = Byte.to_N z.
Proof.
  apply N.eqb_eq.
  apply (check_byte (fun c =>
    N.lor (N.shiftl (N.shiftr c 6) 6) (N.land (lo6 c) 0x3F) =? c)).
  vm_compute. reflexivity.
Qed.

Lemma dec2_enc x y z :
  dec2 (mid1 (Byte.to_N x) (Byte.to_N y)) (mid2 (Byte.to_N y) (Byte.to_N z)) = y.
Proof.
  unfold dec2. rewrite mid1_low, mid2_high, glue_nibbles. apply byte_of_to_N.
Qed.

Lemma dec2_enc_last x y :
  dec2 (mid1 (Byte.to_N x) (Byte.to_N y)) (N.shiftl (N.land (Byte.to_N y) 15) 2) = y.
Proof.
  unfold dec2. rewrite mid1_low.
  replace (N.shiftr (N.land (N.shiftl (N.land (Byte.to_N y) 15) 2) 0x3C) 2)
    with (N.land (Byte.to_N y) 15).
  - rewrite glue_nibbles. apply byte_of_to_N.
  - symmetry. apply N.eqb_eq.
    apply (check_byte (fun b =>
      N.shiftr (N.land (N.shiftl (N.land b 15) 2) 0x3C) 2 =? N.land b 15)).
    vm_compute. reflexivity.
Qed.

Lemma dec3_enc y z : dec3 (mid2 (Byte.to_N y) (Byte.to_N z)) (lo6 (Byte.to_N z)) = z.
Proof.
  unfold dec3. rewrite mid2_low, glue_low6. apply byte_of_to_N.
Qed.

(** Bytes come in groups of three. *)
Lemma triples_ind (P : list byte -> Prop) :
  P [] -> (forall x, P [x]) -> (forall x y, P [x; y]) ->
  (forall x y z r, P r -> P (x :: y :: z :: r)) ->
  forall b, P b.
Proof.
  intros H0 H1 H2 H3.
  assert (H : forall b, P b /\ (forall x, P (x :: b)) /\ (forall x y, P (x :: y :: b))).
  { induction b as [|z r [IH [IH1 IH2]]].
    - repeat split; auto.
    - repeat split; auto. }
  intros b. apply H.
Qed.

Lemma sextets_enc v rest : v < 64 -> sextets (enc v :: rest) = v :: sextets rest.
Proof. intros Hv. simpl. now rewrite unbase64_enc. Qed.

Lemma sextets_pad rest : sextets (pad :: rest) = [].
Proof. reflexivity. Qed.

Lemma fromBase64_toBase64 (b : Buffer.t) : fromBase64 (toBase64 b) = b.
Proof.
  unfold fromBase64. induction b as [|x|x y|x y z r IH] using triples_ind.
  - reflexivity.
  - unfold toBase64, enc1.
    rewrite sextets_enc by apply hi6_bound.
    rewrite sextets_enc by apply mid1_zero_bound.
    rewrite sextets_pad. simpl. f_equal. apply dec1_enc_last.
  - unfold toBase64, enc2.
    rewrite sextets_enc by apply hi6_bound.
    rewrite sextets_enc by apply mid1_bound.
    rewrite sextets_enc by apply mid2_zero_bound.
    rewrite sextets_pad. simpl. f_equal; [apply dec1_enc|].
    f_equal. apply dec2_enc_last.
  - change (toBase64 (x :: y :: z :: r)) with (enc3 x y z ++ toBase64 r).
    unfold enc3. simpl app.
    rewrite sextets_enc by apply hi6_bound.
    rewrite sextets_enc by apply mid1_bound.
    rewrite sextets_enc by apply mid2_bound.
    rewrite sextets_enc by apply lo6_bound.
    change (bytes_of_sextets (?a :: ?b :: ?c :: ?d :: ?l))
      with (dec1 a b :: dec2 b c :: dec3 c d :: bytes_of_sextets l).
    rewrite IH. f_equal; [apply dec1_enc|]. f_equal; [apply dec2_enc|].
    f_equal. apply dec3_enc.
Qed.

End Base64Facts.


(** ** Strings *)

Module JsFacts.

Lemma starts_with_spec p s : starts_with p s = true <-> exists r, s = p ++ r.
Proof.
  revert s. induction p as [|a p IH]; intros s; simpl.
  - split; [intros _; now exists s | reflexivity].
  - destruct s as [|b s].
    + split; [discriminate | intros [r Hr]; discriminate].
    + rewrite andb_true_iff, N.eqb_eq, IH. split.
      * intros [-> [r ->]]. now exists r.
      * intros [r Hr]. injection Hr as -> ->. split; [reflexivity | now exists r].
Qed.

Lemma includesb_spec s t : includesb s t = true <-> includes s t.
Proof.
  unfold includes. induction s as [|c s IH].
  - simpl. rewrite orb_false_r, starts_with_spec. split.
    + intros [r Hr]. exists [], r. exact Hr.
    + intros [before [after H]]. destruct before; [now exists after | discriminate].
  - cbn [includesb]. rewrite orb_true_iff, starts_with_spec, IH. split.
    + intros [[r Hr] | [before [after H]]].
      * exists [], r. exact Hr.
      * exists (c :: before), after. simpl. now rewrite H.
    + intros [before [after H]]. destruct before as [|b before].
      * left. now exists after.
      * right. injection H as _ H. now exists before, after.
Qed.

Lemma not_includes s t : includesb s t = false -> ~ includes s t.
Proof. intros H Hin. apply includesb_spec in Hin. congruence. Qed.

Lemma includes_middle a t b : includes (a ++ t ++ b) t.
Proof. now exists a, b. Qed.

Lemma includes_app_r a s t : includes s t -> includes (a ++ s) t.
Proof.
  intros [before [after ->]]. exists (a ++ before), after. now rewrite <- app_assoc.
Qed.

Lemma includes_app_l s a t : includes s t -> includes (s ++ a) t.
Proof.
  intros [before [after ->]]. exists before, (after ++ a).
  now rewrite <- !app_assoc.
Qed.

Lemma trimStart_blank s : forallb is_space s = true -> trimStart s = [].
Proof.
  induction s as [|c s IH]; simpl; [reflexivity|].
  intros [Hc Hs]%andb_true_iff. rewrite Hc. auto.
Qed.

Lemma trim_blank s : forallb is_space s = true -> trim s = [].
Proof. intros H. unfold trim. now rewrite (trimStart_blank s H). Qed.

Lemma trimStart_keeps_last s c : is_space c = false -> trimStart (s ++ [c]) <> [].
Proof.
  intros Hc. induction s as [|d s IH]; simpl.
  - now rewrite Hc.
  - destruct (is_space d); [exact IH | discriminate].
Qed.

Lemma trimStart_head s :
  forallb is_space s = false ->
  exists c r, trimStart s = c :: r /\ is_space c = false.
Proof.
  induction s as [|d s IH]; simpl; [discriminate|].
  destruct (is_space d) eqn:Hd; simpl; [exact IH|].
  intros _. now exists d, s.
Qed.

Lemma trim_nonblank s : forallb is_space s = false -> trim s <> [].
Proof.
  intros H. destruct (trimStart_head s H) as [c [r [E Hc]]].
  unfold trim, trimEnd. rewrite E. intros Hnil.
  apply (f_equal (@rev code_unit)) in Hnil. rewrite rev_involutive in Hnil. simpl in Hnil.
  destruct (rev r) as [|d r'] eqn:Er; simpl in Hnil.
  - now rewrite Hc in Hnil.
  - revert Hnil. destruct (is_space d).
    + apply (trimStart_keeps_last r' c Hc).
    + discriminate.
Qed.

End JsFacts.

(** ** Regular expressions: what the two patterns accept *)

Module RegexFacts.
Import Regex.

Lemma greedy_sound cls k t : forall acc r,
  greedy cls k acc t = Some r ->
  exists w t', t = w ++ t' /\ forallb cls w = true /\ k (acc ++ w) t' = Some r.
Proof.
  induction t as [|y t IH]; intros acc r H; simpl in H.
  - exists [], []. rewrite !app_nil_r. auto.
  - destruct (cls y) eqn:Hy.
    + destruct (greedy cls k (acc ++ [y]) t) as [r'|] eqn:Hg.
      * injection H as ->. destruct (IH _ _ Hg) as [w [t' [-> [Hw Hk]]]].
        exists (y :: w), t'. simpl. rewrite Hy, Hw.
        rewrite <- app_assoc in Hk. auto.
      * exists [], (y :: t). rewrite !app_nil_r. auto.
    + exists [], (y :: t). rewrite !app_nil_r. auto.
Qed.

(** A repetition that is followed by a character outside its class takes
    the whole run. *)
Lemma greedy_complete cls k c t' r w : forall acc,
  forallb cls w = true -> cls c = false ->
  k (acc ++ w) (c :: t') = Some r ->
  greedy cls k acc (w ++ c :: t') = Some r.
Proof.
  induction w as [|y w IH]; intros acc Hw Hc Hk; simpl.
  - rewrite Hc. now rewrite app_nil_r in Hk.
  - simpl in Hw. apply andb_true_iff in Hw as [Hy Hw]. rewrite Hy.
    rewrite (IH (acc ++ [y]) Hw Hc); [reflexivity|].
    now rewrite <- app_assoc.
Qed.

Lemma exec_literal_sound l p s r :
  exec (map Lit l ++ p) s = Some r -> exists s', s = l ++ s' /\ exec p s' = Some r.
Proof.
  revert s. induction l as [|c l IH]; intros s H; simpl in H.
  - now exists s.
  - destruct s as [|x s]; [discriminate|].
    destruct (x =? c) eqn:E; [|discriminate]. apply N.eqb_eq in E as ->.
    destruct (IH _ H) as [s' [-> Hs']]. now exists s'.
Qed.

Lemma exec_literal_complete l p s : exec (map Lit l ++ p) (l ++ s) = exec p s.
Proof.
  induction l as [|c l IH]; simpl; [reflexivity|]. now rewrite N.eqb_refl.
Qed.

Lemma exec_end_literal l s : exec (map Lit l) (l ++ s) = Some ([], s).
Proof.
  rewrite <- (app_nil_r (map Lit l)). now rewrite exec_literal_complete.
Qed.

Lemma exec_end_literal_sound l s r :
  exec (map Lit l) s = Some r -> exists s', s = l ++ s' /\ r = ([], s').
Proof.
  rewrite <- (app_nil_r (map Lit l)). intros H.
  destruct (exec_literal_sound _ _ _ _ H) as [s' [-> Hs']].
  exists s'. simpl in Hs'. now injection Hs' as <-.
Qed.

(** A pattern [a X+ c b], where the character [c] is outside the class
    [X], matches exactly the subjects [a w c b rest] with [w] a non-empty
    run of [X]. *)
Lemma exec_framed a capture cls c b s caps rest :
  cls c = false ->
  exec (map Lit a ++ [Rep1 capture cls] ++ map Lit (c :: b)) s = Some (caps, rest)
  <-> exists w, w <> [] /\ forallb cls w = true
        /\ s = a ++ w ++ (c :: b) ++ rest
        /\ caps = (if capture then [w] else []).
Proof.
  intros Hc. split.
  - intros H. apply exec_literal_sound in H as [s1 [-> H]].
    cbn [app exec] in H. destruct s1 as [|x s1]; [discriminate|].
    destruct (cls x) eqn:Hx; [|discriminate].
    apply greedy_sound in H as [w [t' [-> [Hw H]]]].
    exists (x :: w). split; [discriminate|]. split; [simpl; now rewrite Hx|].
    unfold record in H. destruct capture.
    + destruct (exec (map Lit (c :: b)) t') as [[caps' rest']|] eqn:E; [|discriminate].
      injection H as <- <-.
      apply exec_end_literal_sound in E as [s' [-> E]]. injection E as -> ->.
      split; reflexivity.
    + apply exec_end_literal_sound in H as [s' [-> E]]. injection E as -> ->.
      split; reflexivity.
  - intros [w [Hne [Hw [-> ->]]]]. rewrite exec_literal_complete.
    destruct w as [|x w]; [congruence|]. simpl in Hw.
    apply andb_true_iff in Hw as [Hx Hw].
    cbn [app exec]. rewrite Hx.
    change ((c :: b) ++ rest) with (c :: (b ++ rest)).
    apply greedy_complete; [exact Hw | exact Hc |].
    change (c :: b ++ rest) with ((c :: b) ++ rest).
    rewrite exec_end_literal. now destruct capture.
Qed.

End RegexFacts.

(** ** The codec *)

Module CodecFacts.
Import Regex RegexFacts.

Lemma data_url_prefix_shape :
  data_url_prefix
  = map Lit (lit "data:") ++ [Rep1 false not_semicolon] ++ map Lit (59 :: lit "base64,").
Proof. reflexivity. Qed.

Lemma image_format_shape :
  image_format
  = map Lit (lit "data:image/") ++ [Rep1 true word_char] ++ map Lit (59 :: []).
Proof. reflexivity. Qed.

(** The prefix pattern matches exactly [data:<mime>;base64,] with a
    non-empty [<mime>] free of semicolons. *)
Lemma data_url_prefix_match s caps rest :
  exec data_url_prefix s = Some (caps, rest)
  <-> exists mime, mime <> [] /\ forallb not_semicolon mime = true
        /\ s = lit "data:" ++ mime ++ lit ";base64," ++ rest /\ caps = [].
Proof. rewrite data_url_prefix_shape. now apply exec_framed. Qed.

Lemma image_format_match s caps rest :
  exec image_format s = Some (caps, rest)
  <-> exists fmt, fmt <> [] /\ forallb word_char fmt = true
        /\ s = lit "data:image/" ++ fmt ++ lit ";" ++ rest /\ caps = [fmt].
Proof. rewrite image_format_shape. now apply exec_framed. Qed.

Lemma base64ToBuffer_prefixed mime rest :
  mime <> [] -> forallb not_semicolon mime = true ->
  base64ToBuffer (lit "data:" ++ mime ++ lit ";base64," ++ rest) = Buffer.fromBase64 rest.
Proof.
  intros Hne Hm. unfold base64ToBuffer, remove_match.
  assert (H : exec data_url_prefix (lit "data:" ++ mime ++ lit ";base64," ++ rest)
              = Some ([], rest)).
  { apply data_url_prefix_match. now exists mime. }
  now rewrite H.
Qed.

Lemma unbase64_low_byte c : Buffer.unbase64 (Buffer.low_byte c) = Buffer.unbase64 c.
Proof.
  unfold Buffer.unbase64, Buffer.low_byte. cbv zeta.
  now rewrite N.Div0.mod_mod.
Qed.

Lemma sextets_low_bytes r : Buffer.sextets (map Buffer.low_byte r) = Buffer.sextets r.
Proof.
  induction r as [|c r IH]; [reflexivity|].
  cbn [map Buffer.sextets]. rewrite unbase64_low_byte, IH.
  unfold Buffer.low_byte. now rewrite N.Div0.mod_mod.
Qed.

Lemma sextets_lenient r :
  Buffer.sextets r = Buffer.sextets (List.filter in_alphabet (until_pad r)).
Proof.
  induction r as [|c r IH]; [reflexivity|].
  cbn [Buffer.sextets until_pad].
  destruct (Buffer.low_byte c =? Buffer.pad) eqn:Ec.
  - apply N.eqb_eq in Ec. unfold Buffer.unbase64. cbv zeta. rewrite Ec. reflexivity.
  - cbn [List.filter]. unfold in_alphabet at 1.
    destruct (Buffer.unbase64 c) as [v|] eqn:Ev.
    + cbn [Buffer.sextets]. rewrite Ev. now f_equal.
    + exact IH.
Qed.

End CodecFacts.

(** C1, as amended: for every byte sequence, decoding the data URL that
    encoding produces gives the bytes back, for the default media type and
    for every explicit media type that is non-empty and contains no
    semicolon. *)
Theorem decode_encode_roundtrip (B : Buffer.t) (m : jsstring) :
  plain_media_type m = true ->
  base64ToBuffer (bufferToBase64DataUrl B None) = B
  /\ base64ToBuffer (bufferToBase64DataUrl B (Some m)) = B.
Proof.
  intros [Hne Hm]%andb_true_iff. unfold bufferToBase64DataUrl. split.
  - cbn [default]. rewrite CodecFacts.base64ToBuffer_prefixed;
      [apply Base64Facts.fromBase64_toBase64 | discriminate | reflexivity].
  - cbn [default]. rewrite CodecFacts.base64ToBuffer_prefixed;
      [apply Base64Facts.fromBase64_toBase64 | | exact Hm].
    destruct m; [discriminate Hne | discriminate].
Qed.

Lemma decode_encode_roundtrip_witness :
  base64ToBuffer (bufferToBase64DataUrl (bytes "%PDF-1.7") None) = bytes "%PDF-1.7"
  /\ base64ToBuffer (bufferToBase64DataUrl (bytes "%PDF-1.7") (Some (lit "application/zip")))
     = bytes "%PDF-1.7".
Proof. apply decode_encode_roundtrip. reflexivity. Defined.

(** C1 as stated fails: a media type with a parameter is an explicit media
    type, the prefix pattern does not match its data URL, and the whole URL
    is decoded as base64. *)
Lemma roundtrip_breaks_on_media_type_parameter :
  bufferToBase64DataUrl (bytes "ABC") (Some (lit "text/plain;charset=utf-8"))
  = lit "data:text/plain;charset=utf-8;base64,QUJD"
  /\ base64ToBuffer (lit "data:text/plain;charset=utf-8;base64,QUJD") <> bytes "ABC".
Proof. split; [reflexivity | vm_compute; discriminate]. Qed.

(** C5, as amended: decoding is lenient and total.  For every input the
    decoder reads the text left after the prefix up to the first code unit
    whose low byte is [=], skips every code unit whose low byte is not a
    character of the alphabet, and returns the bytes that the low bytes of
    the remaining code units encode; no input makes it fail. *)
Theorem base64ToBuffer_is_lenient (s : jsstring) :
  base64ToBuffer s
  = Buffer.fromBase64
      (map Buffer.low_byte
         (List.filter in_alphabet (until_pad (Regex.remove_match data_url_prefix s)))).
Proof.
  unfold base64ToBuffer, Buffer.fromBase64.
  now rewrite CodecFacts.sextets_low_bytes, <- CodecFacts.sextets_lenient.
Qed.

(** Code units above 255 are read by their low byte: U+0151 counts as [Q]
    and U+013D as [=], which ends the input. *)
Example low_byte_is_read :
  base64ToBuffer [0x151; 85; 74; 68] = bytes "ABC"
  /\ base64ToBuffer (lit "QUJD" ++ [0x13D] ++ lit "QUJD") = bytes "ABC".
Proof. split; reflexivity. Qed.

(** C5 as stated fails: the text [Q!UJD] has a character outside the
    alphabet and a wrong length, and decoding it returns bytes. *)
Lemma invalid_base64_is_decoded :
  valid_base64 (Regex.remove_match data_url_prefix (lit "Q!UJD")) = false
  /\ base64ToBuffer (lit "Q!UJD") = bytes "ABC".
Proof. split; reflexivity. Qed.

(** C9: the decoder removes a prefix only when the input starts with
    [data:<mime>;base64,] for a non-empty [<mime>] without semicolon, and
    then removes exactly that prefix, once; every other input reaches the
    base64 decoder whole.  The decoder is a total function: it yields bytes
    for every string. *)
Theorem base64ToBuffer_strips_one_plain_prefix (s : jsstring) :
  (exists mime rest,
      mime <> [] /\ forallb Regex.not_semicolon mime = true
      /\ s = lit "data:" ++ mime ++ lit ";base64," ++ rest
      /\ base64ToBuffer s = Buffer.fromBase64 rest)
  \/ ((forall mime rest,
          mime <> [] -> forallb Regex.not_semicolon mime = true ->
          s <> lit "data:" ++ mime ++ lit ";base64," ++ rest)
      /\ base64ToBuffer s = Buffer.fromBase64 s).
Proof.
  unfold base64ToBuffer, Regex.remove_match.
  destruct (Regex.exec data_url_prefix s) as [[caps rest]|] eqn:E.
  - left. apply CodecFacts.data_url_prefix_match in E as [mime [Hne [Hm [Hs _]]]].
    now exists mime, rest.
  - right. split; [|reflexivity]. intros mime rest Hne Hm Hs.
    assert (H : Regex.exec data_url_prefix s = Some ([], rest)).
    { apply CodecFacts.data_url_prefix_match. now exists mime. }
    congruence.
Qed.

(** A media type with parameters is not recognised, and a second prefix
    stays in place. *)
Example parameters_are_not_stripped :
  base64ToBuffer (lit "data:text/plain;charset=utf-8;base64,QUJD")
  = Buffer.fromBase64 (lit "data:text/plain;charset=utf-8;base64,QUJD").
Proof. reflexivity. Qed.

Example second_prefix_is_kept :
  base64ToBuffer (lit "data:a/b;base64,data:c/d;base64,QUJD")
  = Buffer.fromBase64 (lit "data:c/d;base64,QUJD").
Proof. reflexivity. Qed.

(** ** The gateway client and the handlers *)

Section ServerFacts.

Variable w : World.

Lemma validateRequired_run v name log :
  validateRequired (Some v) name log
  = if blank (Some v)
    then (Threw (Error (name ++ lit " is required")), log)
    else (Returned (trim v), log).
Proof.
  unfold validateRequired. cbn [blank].
  destruct (forallb is_space v) eqn:Hv.
  - rewrite (JsFacts.trim_blank v Hv). cbn [is_empty]. now rewrite orb_true_r.
  - pose proof (JsFacts.trim_nonblank v Hv) as Ht.
    destruct v as [|c v]; [discriminate|].
    destruct (trim (c :: v)); [congruence | reflexivity].
Qed.

(** One request goes out; its settlement decides the outcome. *)
Lemma callStirlingAPI_run endpoint formData log :
  callStirlingAPI w endpoint formData log
  = (match axios_post w (request_for w endpoint formData) with
     | Resolved responseData => Returned responseData
     | Rejected error => Threw (api_error error)
     end, log ++ [request_for w endpoint formData]).
Proof.
  unfold callStirlingAPI, try_catch, await_post.
  fold (request_for w endpoint formData).
  destruct (axios_post w (request_for w endpoint formData)) as [d|e]; [reflexivity|].
  destruct e as [m|m [r|]|m]; try reflexivity.
  unfold throw, api_error, upstream_message. cbn [isAxiosError response_of from_option].
  destruct r as [st tx [d|]]; reflexivity.
Qed.

(** A validation in front of the rest of a handler's [try] block. *)
Lemma try_validate v name (rest : M jsstring) log :
  try_catch (bind (validateRequired (Some v) name) (fun _ => rest))
            (fun error => ret (formatError error)) log
  = if blank (Some v)
    then (Returned (formatError (Error (name ++ lit " is required"))), log)
    else try_catch rest (fun error => ret (formatError error)) log.
Proof.
  unfold try_catch, bind. rewrite validateRequired_run.
  destruct (blank (Some v)); reflexivity.
Qed.

Lemma try_guard (cond : bool) message (rest : M jsstring) log :
  try_catch (bind (if cond then throw (Error message) else ret tt) (fun _ => rest))
            (fun error => ret (formatError error)) log
  = if cond
    then (Returned (formatError (Error message)), log)
    else try_catch rest (fun error => ret (formatError error)) log.
Proof. unfold try_catch, bind. destruct cond; reflexivity. Qed.

Lemma try_call endpoint formData (success : Buffer.t -> jsstring) log :
  try_catch (bind (callStirlingAPI w endpoint formData)
                  (fun resultBuffer => ret (success resultBuffer)))
            (fun error => ret (formatError error)) log
  = deliver (callStirlingAPI w endpoint formData log) success.
Proof.
  unfold try_catch, bind, deliver.
  destruct (callStirlingAPI w endpoint formData log) as [[b|e] l]; reflexivity.
Qed.

End ServerFacts.

(** ** Handlers in normal form *)

Section HandlerFacts.

Variable w : World.

Lemma blank_default v : blank (Some (default [] v)) = blank v.
Proof. now destruct v. Qed.

Lemma ends_with_step (a r u : jsstring) :
  (exists before, r = before ++ u) -> exists before, a ++ r = before ++ u.
Proof. intros [b ->]. exists (a ++ b). now rewrite app_assoc. Qed.

Lemma ends_with_self (u : jsstring) : exists before, u = before ++ u.
Proof. now exists []. Qed.

Ltac peel :=
  cbv zeta; rewrite ?try_validate, ?try_guard, ?try_call, ?blank_default.

Ltac ends := repeat first [ apply ends_with_self | apply ends_with_step ].

(** Every handler either stops at a failed check, before any request, or
    hands one body to the gateway and wraps what comes back; the success
    text ends with the data URL of the handler's media type. *)
Lemma invoke_cases c log :
  (exists message,
      invoke w c log = (Returned (formatError (Error message)), log))
  \/ (exists endpoint formData success,
         invoke w c log = deliver (callStirlingAPI w endpoint formData log) success
         /\ forall b, exists summary,
              success b = summary ++ bufferToBase64DataUrl b (Some (output_media_type c))).
Proof.
  destruct c; cbn [invoke];
    [ unfold mergePDFs | unfold splitPDF | unfold compressPDF
    | unfold convertPDFToImages | unfold rotatePDF | unfold addWatermark
    | unfold removePages | unfold extractImages | unfold convertImagesToPDF
    | unfold ocrPDF ];
    peel;
    repeat match goal with
           | |- context [if ?b then _ else _] => destruct b
           end;
    first [ left; eexists; reflexivity
          | right; eexists _, _, _; split; [reflexivity | intros b; ends] ].
Qed.

(** Arguments that pass the checks always reach the gateway. *)
Lemma accepted_invoke c log :
  accepted c = true ->
  exists endpoint formData success,
    invoke w c log = deliver (callStirlingAPI w endpoint formData log) success
    /\ forall b, exists summary,
         success b = summary ++ bufferToBase64DataUrl b (Some (output_media_type c)).
Proof.
  unfold accepted. intros [Hr Hc]%andb_true_iff.
  destruct c; cbn [invoke];
    [ unfold mergePDFs | unfold splitPDF | unfold compressPDF
    | unfold convertPDFToImages | unfold rotatePDF | unfold addWatermark
    | unfold removePages | unfold extractImages | unfold convertImagesToPDF
    | unfold ocrPDF ];
    peel;
    cbn [required_strings forallb snd] in Hr; rewrite ?andb_true_r in Hr;
    repeat match type of Hr with
           | _ && _ = true =>
               let H := fresh "Hb" in
               apply andb_true_iff in Hr as [H Hr]; apply negb_true_iff in H; rewrite H
           end;
    try (apply negb_true_iff in Hr; rewrite Hr);
    try (apply Nat.leb_le in Hc;
         match goal with
         | |- context [(?n <? ?m)%nat] =>
             replace (n <? m)%nat with false by (symmetry; apply Nat.ltb_ge; lia)
         end);
    eexists _, _, _; (split; [reflexivity | intros b; ends]).
Qed.

End HandlerFacts.

(** ** Validation *)

(** C2, as amended: when a required string argument of a handler is
    absent, empty or white space only, and every required argument that
    the handler validates before it is not, the handler returns the failure
    text naming that argument, and no request is issued. *)
Theorem blank_required_argument_fails (w : World) (c : Invocation)
    (log : list Request) before field value after :
  required_strings c = before ++ (field, value) :: after ->
  forallb (fun fv => negb (blank (snd fv))) before = true ->
  blank value = true ->
  invoke w c log
  = (Returned (cross_mark ++ lit " Error: " ++ field ++ lit " is required"), log)
  /\ includes (cross_mark ++ lit " Error: " ++ field ++ lit " is required") field.
Proof.
  intros E Hb Hv. split; [|apply JsFacts.includes_app_r, JsFacts.includes_app_r;
                           exists [], (lit " is required"); reflexivity].
  destruct c; cbn [required_strings] in E;
    destruct before as [|[f0 v0] [|[f1 v1] [|[f2 v2] before]]];
    try discriminate E; inversion E; subst; clear E;
    cbn [forallb snd] in Hb; rewrite ?andb_true_r in Hb;
    try apply negb_true_iff in Hb; cbn [invoke];
    [ unfold splitPDF | unfold splitPDF | unfold compressPDF
    | unfold convertPDFToImages | unfold rotatePDF | unfold addWatermark
    | unfold addWatermark | unfold removePages | unfold removePages
    | unfold extractImages | unfold ocrPDF ];
    cbv zeta; rewrite ?try_validate, ?blank_default, ?Hb, ?Hv; reflexivity.
Qed.

Lemma blank_required_argument_fails_witness :
  invoke (world_answering (Resolved [])) (SplitPDF (Some (lit "JVBERi0=")) (Some (lit "  "))) []
  = (Returned (cross_mark ++ lit " Error: " ++ lit "pageNumbers" ++ lit " is required"), [])
  /\ includes (cross_mark ++ lit " Error: " ++ lit "pageNumbers" ++ lit " is required")
              (lit "pageNumbers").
Proof.
  apply (blank_required_argument_fails _ _ _ [(lit "pdfFile", Some (lit "JVBERi0="))]
           (lit "pageNumbers") (Some (lit "  ")) []); reflexivity.
Defined.

(** C2 as stated fails for a second required argument: with both arguments
    of the split handler empty, the failure text names [pdfFile] only. *)
Lemma second_blank_argument_is_not_named :
  blank (Some []) = true
  /\ invoke (world_answering (Resolved [])) (SplitPDF (Some []) (Some [])) []
     = (Returned (cross_mark ++ lit " Error: pdfFile is required"), [])
  /\ ~ includes (cross_mark ++ lit " Error: pdfFile is required") (lit "pageNumbers").
Proof.
  split; [reflexivity|]. split; [reflexivity|].
  apply JsFacts.not_includes. reflexivity.
Qed.

(** ** Failures of the remote call *)

(** C3, as amended: a handler whose arguments pass its checks sends one
    request, and when the upstream answers that request with a status
    outside 2xx the handler returns (it does not throw) a failure text
    with the numeric status followed by the response body decoded as text
    when that text is not empty, and otherwise by the reason phrase (or a
    placeholder when there is none). *)
Theorem upstream_failure_is_reported (w : World) (c : Invocation)
    (log : list Request) :
  accepted c = true ->
  exists request,
    snd (invoke w c log) = log ++ [request]
    /\ forall m r,
         axios_post w request = Rejected (AxiosError m (Some r)) ->
         0 < status r ->
         invoke w c log
         = (Returned (cross_mark ++ lit " Error: Stirling PDF API returned "
                      ++ of_N (status r) ++ lit ": " ++ failure_detail r),
            log ++ [request]).
Proof.
  intros Ha.
  destruct (accepted_invoke w c log Ha) as [ep [fd [success [E _]]]].
  exists (request_for w ep fd). rewrite E, callStirlingAPI_run. split.
  - now destruct (axios_post w (request_for w ep fd)).
  - intros m r Hw Hs. rewrite Hw.
    cbn [deliver api_error formatError]. unfold upstream_message.
    destruct (status r =? 0) eqn:E0; [apply N.eqb_eq in E0; lia | reflexivity].
Qed.

Lemma upstream_failure_is_reported_witness :
  invoke failing_upstream (CompressPDF (Some (lit "JVBERi0=")) None) []
  = (Returned (cross_mark ++ lit " Error: Stirling PDF API returned 500: boom"),
     snd (invoke failing_upstream (CompressPDF (Some (lit "JVBERi0=")) None) []))
  /\ length (snd (invoke failing_upstream (CompressPDF (Some (lit "JVBERi0=")) None) []))
     = 1%nat.
Proof.
  destruct (upstream_failure_is_reported failing_upstream
              (CompressPDF (Some (lit "JVBERi0=")) None) [] eq_refl)
    as [request [Hlog H]].
  rewrite Hlog. split; [|reflexivity].
  exact (H (lit "Request failed with status code 500") internal_error_boom
           eq_refl eq_refl).
Defined.

(** The stubbed upstream of the specification: status 500 with body
    [boom] gives a text with both. *)
Example status_500_boom :
  exists text log,
    invoke failing_upstream (CompressPDF (Some (lit "JVBERi0=")) None) []
    = (Returned text, log)
    /\ includes text (lit "500") /\ includes text (lit "boom").
Proof.
  eexists _, _. split; [reflexivity|].
  split; apply JsFacts.includesb_spec; reflexivity.
Qed.

(** C3 as stated fails: with a body present, the reason phrase is not
    part of the failure text. *)
Lemma reason_is_dropped_when_body_has_text :
  fst (invoke failing_upstream (CompressPDF (Some (lit "JVBERi0=")) None) [])
  = Returned (cross_mark ++ lit " Error: Stirling PDF API returned 500: boom")
  /\ ~ includes (cross_mark ++ lit " Error: Stirling PDF API returned 500: boom")
                (statusText internal_error_boom).
Proof. split; [reflexivity | apply JsFacts.not_includes; reflexivity]. Qed.

(** C4, as amended: when the request fails without any response
    (connection refused, timeout, DNS failure), the client fails at once,
    after the one request.  For an axios error the thrown message is the
    fixed text [Stirling PDF API returned unknown: Unknown Error], whatever
    the cause; an error that is not an axios error is thrown again
    unchanged. *)
Theorem transport_failure_is_reported (w : World) (endpoint : jsstring)
    (formData : FormData) (log : list Request) (error : Thrown) :
  axios_post w (request_for w endpoint formData) = Rejected error ->
  response_of error = None ->
  callStirlingAPI w endpoint formData log
  = (Threw (if isAxiosError error
            then Error (lit "Stirling PDF API returned unknown: Unknown Error")
            else error),
     log ++ [request_for w endpoint formData]).
Proof.
  intros Hw Hr. rewrite callStirlingAPI_run, Hw.
  destruct error as [m|m [r|]|m]; try reflexivity. discriminate Hr.
Qed.

Lemma transport_failure_is_reported_witness :
  callStirlingAPI refused_connection (lit "/api/v1/misc/compress-pdf") [] []
  = (Threw (Error (lit "Stirling PDF API returned unknown: Unknown Error")),
     [] ++ [request_for refused_connection (lit "/api/v1/misc/compress-pdf") []]).
Proof.
  apply (transport_failure_is_reported refused_connection
           (lit "/api/v1/misc/compress-pdf") [] []
           (AxiosError (lit "connect ECONNREFUSED 127.0.0.1:8080") None));
    reflexivity.
Defined.

(** C4 as stated fails: the description of a refused connection is not
    part of the message that the client throws. *)
Lemma transport_cause_is_lost :
  fst (callStirlingAPI refused_connection (lit "/api/v1/misc/compress-pdf") [] [])
  = Threw (Error (lit "Stirling PDF API returned unknown: Unknown Error"))
  /\ ~ includes (lit "Stirling PDF API returned unknown: Unknown Error")
                (lit "connect ECONNREFUSED 127.0.0.1:8080").
Proof. split; [reflexivity | apply JsFacts.not_includes; reflexivity]. Qed.

(** ** Output media types *)

(** C7: a handler whose arguments pass its checks sends one request,
    and when the upstream resolves that request the text that the handler
    returns ends with the data URL of the result, with the archive media
    type for the split, document-to-images and extract-images handlers and
    the document media type for every other handler. *)
Theorem result_media_type (w : World) (c : Invocation) (log : list Request) :
  accepted c = true ->
  exists request,
    snd (invoke w c log) = log ++ [request]
    /\ forall result,
         axios_post w request = Resolved result ->
         exists summary,
           invoke w c log
           = (Returned (summary ++ lit "data:" ++ output_media_type c ++ lit ";base64,"
                        ++ Buffer.toBase64 result),
              log ++ [request]).
Proof.
  intros Ha.
  destruct (accepted_invoke w c log Ha) as [ep [fd [success [E Hs]]]].
  exists (request_for w ep fd). rewrite E, callStirlingAPI_run. split.
  - now destruct (axios_post w (request_for w ep fd)).
  - intros result Hw. rewrite Hw. destruct (Hs result) as [summary Hsum].
    exists summary. cbn [deliver]. now rewrite Hsum.
Qed.

Lemma result_media_type_witness :
  exists summary,
    invoke (world_answering (Resolved (bytes "PK")))
           (ExtractImages (Some (lit "JVBERi0=")) None) []
    = (Returned (summary ++ lit "data:application/zip;base64,UEs="),
       snd (invoke (world_answering (Resolved (bytes "PK")))
              (ExtractImages (Some (lit "JVBERi0=")) None) []))
    /\ length (snd (invoke (world_answering (Resolved (bytes "PK")))
                      (ExtractImages (Some (lit "JVBERi0=")) None) []))
       = 1%nat.
Proof.
  destruct (result_media_type (world_answering (Resolved (bytes "PK")))
              (ExtractImages (Some (lit "JVBERi0=")) None) [] eq_refl)
    as [request [Hlog H]].
  destruct (H (bytes "PK") eq_refl) as [summary Hs].
  exists summary. rewrite Hlog. split; [exact Hs | reflexivity].
Defined.

(** The split handler's answer to a resolved request, in full. *)
Example split_result_is_an_archive :
  invoke (world_answering (Resolved (bytes "PK")))
         (SplitPDF (Some (lit "JVBERi0=")) (Some (lit "2"))) []
  = (Returned (check_mark ++ lit " Successfully split PDF at pages: 2"
               ++ zip_result_label ++ lit "data:application/zip;base64,UEs="),
     [request_for (world_answering (Resolved (bytes "PK")))
        (lit "/api/v1/general/split-pages")
        [File (lit "fileInput") (bytes "%PDF-") (lit "input.pdf");
         Field (lit "pageNumbers") (lit "2")]]).
Proof. reflexivity. Qed.

(** ** The dispatcher *)

Lemma tool_name_cases (n : jsstring) (A : Type) (known unknown : A) (s : string) :
  ~ In n tool_names -> In (lit s) tool_names ->
  (if decide (n = lit s) then known else unknown) = unknown.
Proof.
  intros Hn Hs. destruct (decide (n = lit s)) as [->|_]; [contradiction | reflexivity].
Qed.

(** C8: for a name that is none of the ten tool names, the dispatcher
    returns an envelope flagged as an error whose text carries the name;
    nothing is thrown and no request is issued. *)
Theorem unknown_tool_is_reported (w : World) (n : jsstring)
    (args : option (gmap jsstring JsValue)) (log : list Request) :
  ~ In n tool_names ->
  callTool w {| name := n; arguments := args |} log
  = (Returned {| content := [ {| text := cross_mark ++ lit " Error: Unknown tool: " ++ n |} ];
                 isError := Some true |}, log)
  /\ includes (cross_mark ++ lit " Error: Unknown tool: " ++ n) n.
Proof.
  intros Hn. split.
  - unfold callTool, try_catch. cbn [name arguments].
    rewrite !(tool_name_cases n _ _ _ _ Hn) by (cbv [tool_names map In]; tauto).
    reflexivity.
  - exists (cross_mark ++ lit " Error: Unknown tool: "), [].
    now rewrite app_nil_r, <- !app_assoc.
Qed.

Lemma unknown_tool_is_reported_witness :
  callTool (world_answering (Resolved [])) {| name := lit "delete_pdf"; arguments := None |} []
  = (Returned {| content := [ {| text := cross_mark ++ lit " Error: Unknown tool: "
                                          ++ lit "delete_pdf" |} ];
                 isError := Some true |}, [])
  /\ includes (cross_mark ++ lit " Error: Unknown tool: " ++ lit "delete_pdf")
              (lit "delete_pdf").
Proof.
  apply (unknown_tool_is_reported (world_answering (Resolved [])) (lit "delete_pdf") None []).
  vm_compute. intuition discriminate.
Defined.

(** The dispatcher returns an envelope for every request. *)
Lemma callTool_returns (w : World) (request : CallToolParams) (log : list Request) :
  exists envelope log', callTool w request log = (Returned envelope, log').
Proof.
  unfold callTool, try_catch.
  match goal with |- context [match ?body log with _ => _ end] =>
    destruct (body log) as [[envelope|error] log'] end.
  - now exists envelope, log'.
  - eexists _, _. reflexivity.
Qed.

(** ** Multi-file handlers *)

Module FormFacts.

(** A loop that appends one part per element appends the parts in order,
    numbered from the loop's first index. *)
Lemma forEach_append {A} (part : A -> nat -> Part) (l : list A) : forall k (fd : FormData),
  forEach_from k l (fun x index formData => formData ++ [part x index]) fd
  = fd ++ imap (fun i x => part x (k + i)%nat) l.
Proof.
  induction l as [|x l IH]; intros k fd; cbn [forEach_from imap].
  - now rewrite app_nil_r.
  - rewrite IH, <- app_assoc. cbn [app]. rewrite Nat.add_0_r.
    do 2 f_equal. apply imap_ext. intros i y _. cbn. f_equal. lia.
Qed.

Lemma filter_files {A} (f : nat -> A -> Part) (l : list A) :
  (forall i x, is_file (f i x) = true) ->
  List.filter is_file (imap f l) = imap f l.
Proof.
  revert f. induction l as [|x l IH]; intros f Hf; cbn [imap List.filter];
    [reflexivity|].
  rewrite Hf. f_equal. apply IH. intros i y. apply Hf.
Qed.

Lemma binary_parts_app (a b : FormData) :
  binary_parts (a ++ b) = binary_parts a ++ binary_parts b.
Proof. apply List.filter_app. Qed.

Lemma first_group_extension input :
  extension_of input (default (lit "png") (Regex.first_group image_format input)).
Proof.
  unfold Regex.first_group, extension_of.
  destruct (Regex.exec image_format input) as [[caps rest]|] eqn:E.
  - apply CodecFacts.image_format_match in E as [fmt [Hne [Hf [Hs ->]]]].
    left. now exists fmt, rest.
  - right. split; [|reflexivity]. intros fmt rest Hne Hf Hs.
    assert (H : Regex.exec image_format input = Some ([fmt], rest)).
    { apply CodecFacts.image_format_match. now exists fmt. }
    congruence.
Qed.

End FormFacts.

Section MultiFile.

Variable w : World.

Lemma mergePDFs_sends files sortType log :
  (2 <= length files)%nat ->
  mergePDFs w (Some files) sortType log
  = deliver
      (callStirlingAPI w (lit "/api/v1/general/merge-pdfs")
         (imap (fun i base64Pdf =>
                  File (lit "fileInput") (base64ToBuffer base64Pdf)
                       (lit "file" ++ of_nat (i + 1) ++ lit ".pdf")) files
          ++ [Field (lit "sortType") (default (lit "orderProvided") sortType)]) log)
      (fun resultBuffer =>
         check_mark ++ lit " Successfully merged " ++ of_nat (length files)
         ++ lit " PDF files" ++ pdf_result_label
         ++ bufferToBase64DataUrl resultBuffer None).
Proof.
  intros Hlen. unfold mergePDFs.
  change (default [] (Some files)) with files. cbv zeta.
  rewrite try_guard, try_call.
  destruct (length files <? 2)%nat eqn:E; [apply Nat.ltb_lt in E; lia|].
  unfold forEach, append_file, append.
  rewrite (FormFacts.forEach_append
    (fun base64Pdf index =>
       File (lit "fileInput") (base64ToBuffer base64Pdf)
            (lit "file" ++ of_nat (index + 1) ++ lit ".pdf"))).
  reflexivity.
Qed.

Lemma convertImagesToPDF_sends files fitOption colorType log :
  (1 <= length files)%nat ->
  convertImagesToPDF w (Some files) fitOption colorType log
  = deliver
      (callStirlingAPI w (lit "/api/v1/convert/img/pdf")
         (imap (fun i base64Image =>
                  File (lit "fileInput") (base64ToBuffer base64Image)
                       (lit "image" ++ of_nat (i + 1) ++ lit "."
                        ++ default (lit "png")
                             (Regex.first_group image_format base64Image))) files
          ++ [Field (lit "fitOption") (default (lit "fillPage") fitOption);
              Field (lit "colorType") (default (lit "color") colorType);
              Field (lit "autoRotate") (lit "false")]) log)
      (fun resultBuffer =>
         check_mark ++ lit " Successfully converted " ++ of_nat (length files)
         ++ lit " images to PDF" ++ pdf_result_label
         ++ bufferToBase64DataUrl resultBuffer None).
Proof.
  intros Hlen. unfold convertImagesToPDF.
  change (default [] (Some files)) with files. cbv zeta.
  rewrite try_guard, try_call.
  destruct (length files <? 1)%nat eqn:E; [apply Nat.ltb_lt in E; lia|].
  unfold forEach, append_file, append.
  rewrite (FormFacts.forEach_append
    (fun base64Image index =>
       File (lit "fileInput") (base64ToBuffer base64Image)
            (lit "image" ++ of_nat (index + 1) ++ lit "."
             ++ default (lit "png") (Regex.first_group image_format base64Image)))).
  now rewrite <- !app_assoc.
Qed.

Lemma deliver_sends endpoint formData success log :
  exists text,
    deliver (callStirlingAPI w endpoint formData log) success
    = (Returned text, log ++ [request_for w endpoint formData]).
Proof.
  rewrite callStirlingAPI_run.
  destruct (axios_post w (request_for w endpoint formData)); eexists; reflexivity.
Qed.

End MultiFile.

(** C6: merging fewer than two documents fails with the cardinality
    message and issues no request; merging exactly two issues exactly one
    request whose body has exactly two binary parts, in the order given.
    Converting no image fails with the cardinality message and issues no
    request; converting one image issues exactly one request with exactly
    one binary part. *)
Theorem cardinality_rules (w : World) (log : list Request) :
  (forall files sortType,
      (length (default [] files) < 2)%nat ->
      mergePDFs w files sortType log
      = (Returned (cross_mark
                   ++ lit " Error: At least 2 PDF files are required for merging"),
         log))
  /\ (forall a b sortType,
         exists request text,
           mergePDFs w (Some [a; b]) sortType log = (Returned text, log ++ [request])
           /\ binary_parts (body request)
              = [ File (lit "fileInput") (base64ToBuffer a) (lit "file1.pdf");
                  File (lit "fileInput") (base64ToBuffer b) (lit "file2.pdf") ])
  /\ (forall files fitOption colorType,
         default [] files = [] ->
         convertImagesToPDF w files fitOption colorType log
         = (Returned (cross_mark ++ lit " Error: At least 1 image file is required"),
            log))
  /\ (forall a fitOption colorType,
         exists request text ext,
           convertImagesToPDF w (Some [a]) fitOption colorType log
           = (Returned text, log ++ [request])
           /\ binary_parts (body request)
              = [ File (lit "fileInput") (base64ToBuffer a) (lit "image1." ++ ext) ]).
Proof.
  repeat split.
  - intros files sortType Hlen. unfold mergePDFs. cbv zeta.
    rewrite try_guard.
    destruct (length (default [] files) <? 2)%nat eqn:E; [reflexivity|].
    apply Nat.ltb_ge in E. lia.
  - intros a b sortType.
    rewrite mergePDFs_sends by (cbn; lia).
    match goal with |- context [deliver (callStirlingAPI w ?ep ?fd log) ?k] =>
      destruct (deliver_sends w ep fd k log) as [text ->];
      exists (request_for w ep fd), text end.
    split; reflexivity.
  - intros files fitOption colorType Hnil. unfold convertImagesToPDF. cbv zeta.
    rewrite try_guard, Hnil. reflexivity.
  - intros a fitOption colorType.
    rewrite convertImagesToPDF_sends by (cbn; lia).
    match goal with |- context [deliver (callStirlingAPI w ?ep ?fd log) ?k] =>
      destruct (deliver_sends w ep fd k log) as [text ->];
      exists (request_for w ep fd), text end.
    exists (default (lit "png") (Regex.first_group image_format a)).
    split; reflexivity.
Qed.

Lemma cardinality_rules_witness :
  mergePDFs (world_answering (Resolved [])) (Some [lit "JVBERi0="]) None []
  = (Returned (cross_mark
               ++ lit " Error: At least 2 PDF files are required for merging"),
     []).
Proof.
  apply (proj1 (cardinality_rules (world_answering (Resolved [])) [])).
  cbn. lia.
Defined.

(** C10: the images handler names the binary part of its i-th input
    (counting from 1, in input order) [image<i>.<ext>], where [<ext>] is
    the format captured from a leading [data:image/<fmt>;] of that input
    and [png] when the input has no such prefix. *)
Theorem image_part_filenames (w : World) (files : list jsstring)
    (fitOption colorType : option jsstring) (log : list Request) :
  files <> [] ->
  exists request text,
    convertImagesToPDF w (Some files) fitOption colorType log
    = (Returned text, log ++ [request])
    /\ length (binary_parts (body request)) = length files
    /\ forall (i : nat) input,
         files !! i = Some input ->
         exists ext,
           extension_of input ext
           /\ binary_parts (body request) !! i
              = Some (File (lit "fileInput") (base64ToBuffer input)
                           (lit "image" ++ of_nat (i + 1) ++ lit "." ++ ext)).
Proof.
  intros Hne.
  rewrite convertImagesToPDF_sends by (destruct files; [congruence | cbn; lia]).
  match goal with |- context [deliver (callStirlingAPI w ?ep ?fd log) ?k] =>
    destruct (deliver_sends w ep fd k log) as [text ->];
    exists (request_for w ep fd), text end.
  split; [reflexivity|]. cbn [body request_for].
  rewrite FormFacts.binary_parts_app. unfold binary_parts at 1 3.
  rewrite FormFacts.filter_files by reflexivity.
  cbn [binary_parts List.filter is_file]. rewrite app_nil_r. split.
  - apply length_imap.
  - intros i input Hi.
    exists (default (lit "png") (Regex.first_group image_format input)).
    split; [apply FormFacts.first_group_extension|].
    rewrite list_lookup_imap, Hi. reflexivity.
Qed.

Lemma image_part_filenames_witness :
  exists request text,
    convertImagesToPDF (world_answering (Resolved []))
      (Some [lit "data:image/jpeg;base64,/9j/"; lit "iVBORw0KGgo="]) None None []
    = (Returned text, [] ++ [request])
    /\ length (binary_parts (body request))
       = length [lit "data:image/jpeg;base64,/9j/"; lit "iVBORw0KGgo="]
    /\ forall (i : nat) input,
         [lit "data:image/jpeg;base64,/9j/"; lit "iVBORw0KGgo="] !! i = Some input ->
         exists ext,
           extension_of input ext
           /\ binary_parts (body request) !! i
              = Some (File (lit "fileInput") (base64ToBuffer input)
                           (lit "image" ++ of_nat (i + 1) ++ lit "." ++ ext)).
Proof.
  apply (image_part_filenames (world_answering (Resolved []))
           [lit "data:image/jpeg;base64,/9j/"; lit "iVBORw0KGgo="] None None []).
  discriminate.
Defined.

(** The names of two inputs, one with an image prefix and one bare. *)
Example image_names :
  exists text request,
    convertImagesToPDF (world_answering (Resolved []))
      (Some [lit "data:image/jpeg;base64,/9j/"; lit "iVBORw0KGgo="]) None None []
    = (Returned text, [request])
    /\ binary_parts (body request)
       = [ File (lit "fileInput") (Buffer.fromBase64 (lit "/9j/")) (lit "image1.jpeg");
           File (lit "fileInput") (Buffer.fromBase64 (lit "iVBORw0KGgo="))
                (lit "image2.png") ].
Proof. eexists _, _. split; reflexivity. Qed.

(** A format that is not a run of word characters is not captured: an
    SVG data URL is named as a PNG. *)
Example svg_input_is_named_png :
  default (lit "png")
    (Regex.first_group image_format (lit "data:image/svg+xml;base64,PHN2Zz4="))
  = lit "png".
Proof. reflexivity. Qed.

(** * Further properties *)

(** ** The dispatcher and the catalog *)

Section DispatchFacts.

Variable w : World.

Lemma handler_returns c log :
  exists t log', invoke w c log = (Returned t, log').
Proof.
  destruct (invoke_cases w c log) as [[msg E] | [ep [fd [success [E _]]]]].
  - eexists _, _. exact E.
  - rewrite E, callStirlingAPI_run.
    destruct (axios_post w (request_for w ep fd)); eexists _, _; reflexivity.
Qed.

(** The dispatcher's defaults are the handlers' own. *)
Lemma given_string_read v x fallback :
  given_string v = Some x ->
  as_string (or_value v (JString fallback)) = Some (default fallback x).
Proof.
  destruct v as [y|]; cbn [given_string or_value]; [|now intros [= <-]].
  destruct (truthy y); [|now intros [= <-]].
  destruct (as_string y) as [s|]; cbn [mbind option_bind]; [|discriminate].
  now intros [= <-].
Qed.

Lemma given_array_read v x :
  given_array v = Some x ->
  as_strings (or_value v (JArray [])) = Some (default [] x).
Proof.
  destruct v as [y|]; cbn [given_array or_value]; [|now intros [= <-]].
  destruct (truthy y); [|now intros [= <-]].
  destruct (as_strings y) as [l|]; cbn [mbind option_bind]; [|discriminate].
  now intros [= <-].
Qed.

Lemma try_wrap (handler : M jsstring) log :
  try_catch (bind handler (fun t => ret (text_result t)))
            (fun error =>
               ret {| content := [ {| text := formatError error |} ];
                      isError := Some true |}) log
  = wrap (handler log).
Proof.
  unfold try_catch, bind, wrap. destruct (handler log) as [[t|e] l]; reflexivity.
Qed.

Ltac read_arguments H :=
  repeat match type of H with
         | context [given_string ?v] =>
             let E := fresh "E" in
             destruct (given_string v) as [?|] eqn:E;
             [ rewrite (given_string_read _ _ _ E) | discriminate H ]
         | context [given_array ?v] =>
             let E := fresh "E" in
             destruct (given_array v) as [?|] eqn:E;
             [ rewrite (given_array_read _ _ E) | discriminate H ]
         end.

Lemma callTool_requested request log c :
  requested request = Some c ->
  callTool w request log = wrap (invoke w c log).
Proof.
  unfold requested, callTool, string_argument, array_argument. cbv zeta.
  repeat match goal with
         | |- context [decide (?a = ?b)] => destruct (decide (a = b)) as [_|_]
         end;
    try discriminate; intros H; read_arguments H;
    cbn [mbind option_bind] in H; injection H as <-;
    cbn [mbind option_bind call]; rewrite try_wrap; cbn [invoke];
    [ unfold mergePDFs | unfold splitPDF | unfold compressPDF
    | unfold convertPDFToImages | unfold rotatePDF | unfold addWatermark
    | unfold removePages | unfold extractImages | unfold convertImagesToPDF
    | unfold ocrPDF ];
    reflexivity.
Qed.

Lemma catalog_names : map Catalog.name Catalog.listTools = tool_names.
Proof. reflexivity. Qed.

Lemma callTool_unknown request log :
  ~ In (name request) tool_names ->
  callTool w request log
  = (Returned {| content :=
                   [ {| text := cross_mark ++ lit " Error: Unknown tool: " ++ name request |} ];
                 isError := Some true |}, log).
Proof.
  intros Hn. unfold callTool, try_catch. cbv zeta.
  rewrite !(tool_name_cases (name request) _ _ _ _ Hn) by (cbv [tool_names map In]; tauto).
  reflexivity.
Qed.

(** *** Well-typed arguments have a reading *)

Lemma admits_string v :
  admits Schema.StringType v = true -> is_Some (given_string v).
Proof.
  destruct v as [x|]; cbn [admits given_string]; [|eauto].
  destruct (truthy x); cbn [negb orb]; [|eauto].
  intros [s ->]%bool_decide_eq_true. cbn [mbind option_bind]. eauto.
Qed.

Lemma admits_array v :
  admits Schema.ArrayOfStrings v = true -> is_Some (given_array v).
Proof.
  destruct v as [x|]; cbn [admits given_array]; [|eauto].
  destruct (truthy x); cbn [negb orb]; [|eauto].
  intros [l ->]%bool_decide_eq_true. cbn [mbind option_bind]. eauto.
Qed.

Lemma well_typed_at request k t :
  well_typed request = true ->
  In (k, t) (Catalog.declared_types (name request)) ->
  admits t (arguments request ≫= (.!! k)) = true.
Proof.
  unfold well_typed. rewrite forallb_forall. intros H Hin. exact (H _ Hin).
Qed.

Lemma typed_string request key :
  well_typed request = true ->
  In (lit key, Schema.StringType) (Catalog.declared_types (name request)) ->
  is_Some (string_argument (arguments request) key).
Proof.
  intros Hwt Hin. apply admits_string. exact (well_typed_at _ _ _ Hwt Hin).
Qed.

Lemma typed_array request key :
  well_typed request = true ->
  In (lit key, Schema.ArrayOfStrings) (Catalog.declared_types (name request)) ->
  is_Some (array_argument (arguments request) key).
Proof.
  intros Hwt Hin. apply admits_array. exact (well_typed_at _ _ _ Hwt Hin).
Qed.

Lemma well_typed_requested request :
  well_typed request = true -> In (name request) tool_names ->
  is_Some (requested request).
Proof.
  intros Hwt Hin. unfold requested. cbv zeta.
  repeat match goal with
         | |- context [decide (?a = ?b)] => destruct (decide (a = b)) as [e|?]
         end;
    [ .. | cbv [tool_names map In] in Hin; exfalso; intuition congruence ];
    repeat match goal with
           | |- context [string_argument ?a ?key] =>
               let H := fresh in
               destruct (typed_string request key Hwt) as [? H];
               [ rewrite e; vm_compute; repeat first [left; reflexivity | right]
               | rewrite H; cbn [mbind option_bind] ]
           | |- context [array_argument ?a ?key] =>
               let H := fresh in
               destruct (typed_array request key Hwt) as [? H];
               [ rewrite e; vm_compute; repeat first [left; reflexivity | right]
               | rewrite H; cbn [mbind option_bind] ]
           end;
    eauto.
Qed.

Lemma requested_listed request c :
  requested request = Some c -> In (name request) tool_names.
Proof.
  unfold requested. cbv zeta.
  repeat match goal with
         | |- context [decide (?a = ?b)] => destruct (decide (a = b)) as [e|?]
         end;
    try (intros _; rewrite e; cbv [tool_names map In]; tauto).
  discriminate.
Qed.

(** An empty string under a key reads as the key's absence. *)
Lemma or_value_empty_string (k : jsstring) (o : gmap jsstring JsValue) key fallback :
  or_value (prop (Some (<[k := JString []]> o)) key) fallback
  = or_value (prop (Some (delete k o)) key) fallback.
Proof.
  unfold prop. destruct (decide (k = lit key)) as [->|Hne].
  - now rewrite lookup_insert_eq, lookup_delete_eq.
  - now rewrite lookup_insert_ne, lookup_delete_ne.
Qed.

End DispatchFacts.

(** X1: to a request whose arguments are well typed (every property
    that the catalog declares for the tool is absent, falsy or of the
    declared type) the dispatcher answers with an envelope of exactly one
    text block, flagged as an error exactly when the tool name is not in
    the catalog that [listTools] returns; a failure inside a handler comes
    back as text in an envelope without the flag. *)
Theorem error_flag_marks_unknown_tools (w : World) (request : CallToolParams)
    (log : list Request) :
  well_typed request = true ->
  exists t log',
    callTool w request log
    = (Returned {| content := [ {| text := t |} ];
                   isError :=
                     if bool_decide (name request ∈ map Catalog.name Catalog.listTools)
                     then None else Some true |}, log').
Proof.
  intros Hwt. rewrite catalog_names.
  destruct (decide (name request ∈ tool_names)) as [Hin|Hout].
  - destruct (well_typed_requested request Hwt) as [c E];
      [now apply list_elem_of_In|].
    rewrite (callTool_requested w request log c E).
    destruct (handler_returns w c log) as [t [log' ->]].
    exists t, log'. cbn [wrap]. now rewrite bool_decide_eq_true_2.
  - rewrite (callTool_unknown w request log)
      by (intros Hin; apply Hout; now apply list_elem_of_In).
    eexists _, _. now rewrite bool_decide_eq_false_2.
Qed.

Lemma error_flag_marks_unknown_tools_witness :
  exists t log',
    callTool (world_answering (Resolved (bytes "%PDF")))
      {| name := lit "compress_pdf";
         arguments := Some {[ lit "pdfFile" := JString (lit "JVBERi0=");
                              lit "optimizeLevel" := JNumber 0 ]} |} []
    = (Returned {| content := [ {| text := t |} ]; isError := None |}, log').
Proof.
  apply (error_flag_marks_unknown_tools (world_answering (Resolved (bytes "%PDF")))
           {| name := lit "compress_pdf";
              arguments := Some {[ lit "pdfFile" := JString (lit "JVBERi0=");
                                   lit "optimizeLevel" := JNumber 0 ]} |} []).
  vm_compute. reflexivity.
Defined.

(** X2: the dispatcher reads only the properties that the catalog
    declares for the tool: two argument objects that agree on them get
    the same answer, whatever else they hold. *)
Theorem undeclared_arguments_are_ignored (w : World) (n : jsstring)
    (o o' : gmap jsstring JsValue) (log : list Request) :
  (forall k, In k (Catalog.declared n) -> o !! k = o' !! k) ->
  callTool w {| name := n; arguments := Some o |} log
  = callTool w {| name := n; arguments := Some o' |} log.
Proof.
  intros H. unfold callTool, prop. cbn [name arguments].
  repeat match goal with
         | |- context [decide (?a = ?b)] => destruct (decide (a = b)) as [->|?]
         end;
    try reflexivity;
    rewrite !H by (vm_compute; repeat first [left; reflexivity | right]);
    reflexivity.
Qed.

Lemma undeclared_arguments_are_ignored_witness :
  callTool (world_answering (Resolved []))
    {| name := lit "compress_pdf";
       arguments := Some {[ lit "pdfFile" := JString (lit "JVBERi0=");
                            lit "verbose" := JString (lit "yes") ]} |} []
  = callTool (world_answering (Resolved []))
      {| name := lit "compress_pdf";
         arguments := Some {[ lit "pdfFile" := JString (lit "JVBERi0=") ]} |} [].
Proof.
  apply undeclared_arguments_are_ignored.
  intros k Hk. vm_compute in Hk.
  destruct Hk as [<-|[<-|[]]]; vm_compute; reflexivity.
Defined.

(** X3: for the dispatcher an argument given as the empty string is the
    same as an argument that is not given at all. *)
Theorem empty_string_argument_counts_as_absent (w : World) (n k : jsstring)
    (o : gmap jsstring JsValue) (log : list Request) :
  callTool w {| name := n; arguments := Some (<[k := JString []]> o) |} log
  = callTool w {| name := n; arguments := Some (delete k o) |} log.
Proof.
  unfold callTool. cbn [name arguments]. cbv zeta.
  now rewrite !(or_value_empty_string k o).
Qed.

(** X4: for a tool of the catalog and arguments that are well typed,
    the dispatcher's answer is the result of the handler, called with the
    arguments that are given and with every other argument left out, in a
    success envelope; the defaults that the dispatcher fills in are the
    defaults of the handler's own signature. *)
Theorem dispatcher_defaults_are_the_handlers (w : World) (request : CallToolParams)
    (log : list Request) :
  well_typed request = true -> In (name request) tool_names ->
  exists c t log',
    requested request = Some c
    /\ invoke w c log = (Returned t, log')
    /\ callTool w request log = (Returned (text_result t), log').
Proof.
  intros Hwt Hin. destruct (well_typed_requested request Hwt Hin) as [c E].
  exists c. rewrite (callTool_requested w request log c E).
  destruct (handler_returns w c log) as [t [log' ->]]. now exists t, log'.
Qed.

Lemma dispatcher_defaults_are_the_handlers_witness :
  exists c t log',
    requested {| name := lit "rotate_pdf";
                 arguments := Some {[ lit "pdfFile" := JString (lit "JVBERi0=");
                                      lit "angle" := JString [];
                                      lit "pageNumbers" := JNull ]} |}
    = Some c
    /\ invoke (world_answering (Resolved (bytes "%PDF"))) c [] = (Returned t, log')
    /\ callTool (world_answering (Resolved (bytes "%PDF")))
         {| name := lit "rotate_pdf";
            arguments := Some {[ lit "pdfFile" := JString (lit "JVBERi0=");
                                 lit "angle" := JString [];
                                 lit "pageNumbers" := JNull ]} |} []
       = (Returned (text_result t), log').
Proof.
  apply (dispatcher_defaults_are_the_handlers (world_answering (Resolved (bytes "%PDF")))
           {| name := lit "rotate_pdf";
              arguments := Some {[ lit "pdfFile" := JString (lit "JVBERi0=");
                                   lit "angle" := JString [];
                                   lit "pageNumbers" := JNull ]} |}).
  - vm_compute. reflexivity.
  - vm_compute. repeat first [left; reflexivity | right].
Defined.

(** The handler call behind the example above: the empty string and the
    [null] both leave the handler's own default in force. *)
Example rotate_request_reading :
  requested {| name := lit "rotate_pdf";
               arguments := Some {[ lit "pdfFile" := JString (lit "JVBERi0=");
                                    lit "angle" := JString [];
                                    lit "pageNumbers" := JNull ]} |}
  = Some (RotatePDF (Some (lit "JVBERi0=")) None None).
Proof. vm_compute. reflexivity. Qed.

(** A truthy value of another type has no reading, and the request is
    not well typed. *)
Example array_where_a_string_is_declared :
  let request :=
    {| name := lit "convert_pdf_to_images";
       arguments := Some {[ lit "pdfFile" := JString (lit "JVBERi0=");
                            lit "dpi" := JArray [JString (lit "72")] ]} |} in
  requested request = None /\ well_typed request = false.
Proof. vm_compute. split; reflexivity. Qed.

(** ** What every handler sends *)

Section SendFacts.

Variable w : World.

Lemma forallb_is_field_imap {A} (f : nat -> A -> Part) (l : list A) :
  (forall i x, is_field (f i x) = true) -> forallb is_field (imap f l) = true.
Proof.
  revert f. induction l as [|x l IH]; intros f Hf; cbn [imap forallb]; [reflexivity|].
  rewrite Hf. apply IH. intros i y. apply Hf.
Qed.

Ltac peel :=
  cbv zeta; rewrite ?try_validate, ?try_guard, ?try_call, ?blank_default.

Ltac sent :=
  right; eexists _, _, _;
  split; [reflexivity | split; [reflexivity | intros b; eexists; reflexivity]].

(** The normal form of a handler, with the endpoint family, the place
    of the binary parts and the mark of the success text. *)
Lemma invoke_sends c log :
  (exists message,
      invoke w c log = (Returned (formatError (Error message)), log))
  \/ (exists endpoint fields success,
         invoke w c log
         = deliver (callStirlingAPI w (lit "/api/v1/" ++ endpoint)
                      (attachments c ++ fields) log) success
         /\ forallb is_field fields = true
         /\ forall b, exists rest, success b = check_mark ++ rest).
Proof.
  destruct c; cbn [invoke attachments].
  - unfold mergePDFs. peel.
    destruct (length (default [] pdfFiles) <? 2)%nat; [left; eexists; reflexivity|].
    unfold forEach, append_file, append.
    rewrite (FormFacts.forEach_append
      (fun base64Pdf index =>
         File (lit "fileInput") (base64ToBuffer base64Pdf)
              (lit "file" ++ of_nat (index + 1) ++ lit ".pdf"))).
    sent.
  - unfold splitPDF. peel.
    repeat match goal with |- context [if ?b then _ else _] => destruct b end;
      first [left; eexists; reflexivity | sent].
  - unfold compressPDF. peel.
    repeat match goal with |- context [if ?b then _ else _] => destruct b end;
      first [left; eexists; reflexivity | sent].
  - unfold convertPDFToImages. peel.
    repeat match goal with |- context [if ?b then _ else _] => destruct b end;
      first [left; eexists; reflexivity | sent].
  - unfold rotatePDF. peel.
    repeat match goal with |- context [if ?b then _ else _] => destruct b end;
      first [left; eexists; reflexivity | sent].
  - unfold addWatermark. peel.
    repeat match goal with |- context [if ?b then _ else _] => destruct b end;
      first [left; eexists; reflexivity | sent].
  - unfold removePages. peel.
    repeat match goal with |- context [if ?b then _ else _] => destruct b end;
      first [left; eexists; reflexivity | sent].
  - unfold extractImages. peel.
    repeat match goal with |- context [if ?b then _ else _] => destruct b end;
      first [left; eexists; reflexivity | sent].
  - unfold convertImagesToPDF. peel.
    destruct (length (default [] imageFiles) <? 1)%nat; [left; eexists; reflexivity|].
    unfold forEach, append_file, append.
    rewrite (FormFacts.forEach_append
      (fun base64Image index =>
         File (lit "fileInput") (base64ToBuffer base64Image)
              (lit "image" ++ of_nat (index + 1) ++ lit "."
               ++ default (lit "png") (Regex.first_group image_format base64Image)))).
    rewrite <- !app_assoc. sent.
  - unfold ocrPDF. peel.
    destruct (blank pdfFile); [left; eexists; reflexivity|].
    unfold forEach, append_file, append.
    rewrite (FormFacts.forEach_append
      (fun lang (_ : nat) => Field (lit "languages") lang)).
    rewrite <- !app_assoc. right. eexists _, _, _.
    split; [reflexivity|]. split; [|intros b; eexists; reflexivity].
    rewrite forallb_app. apply andb_true_iff. split; [|reflexivity].
    apply forallb_is_field_imap. reflexivity.
Qed.

End SendFacts.

Section RequestFacts.

Variable w : World.

Lemma invoke_log c log :
  snd (invoke w c log) = log
  \/ exists endpoint fields,
       snd (invoke w c log)
       = log ++ [request_for w (lit "/api/v1/" ++ endpoint) (attachments c ++ fields)]
       /\ forallb is_field fields = true.
Proof.
  destruct (invoke_sends w c log) as [[msg E] | [ep [fields [success [E [Hf _]]]]]].
  - left. now rewrite E.
  - right. exists ep, fields. split; [|exact Hf].
    rewrite E, callStirlingAPI_run.
    now destruct (axios_post w _).
Qed.

Lemma sent_request c log req :
  snd (invoke w c log) = log ++ [req] ->
  exists endpoint fields,
    req = request_for w (lit "/api/v1/" ++ endpoint) (attachments c ++ fields)
    /\ forallb is_field fields = true.
Proof.
  intros H. destruct (invoke_log c log) as [E | [ep [fields [E Hf]]]].
  - rewrite E in H. apply (f_equal (@length Request)) in H.
    rewrite length_app in H. cbn in H. lia.
  - rewrite E in H. apply app_inj_tail in H as [_ <-]. now exists ep, fields.
Qed.

Lemma env_or_configured v fallback :
  env_or v fallback = default fallback (configured v).
Proof. destruct v as [[|c s]|]; reflexivity. Qed.

Lemma attachments_are_files c : forallb is_file (attachments c) = true.
Proof.
  assert (H : forall {A} (f : nat -> A -> Part) (l : list A),
             (forall i x, is_file (f i x) = true) -> forallb is_file (imap f l) = true).
  { intros A f l. revert f. induction l as [|x l IH]; intros f Hf; cbn [imap forallb];
      [reflexivity|]. rewrite Hf. apply IH. intros i y. apply Hf. }
  destruct c; cbn [attachments]; first [reflexivity | apply H; reflexivity].
Qed.

Lemma attached_imap {A} (g : A -> Buffer.t) (n : jsstring) (h : nat -> A -> jsstring)
    (l : list A) :
  attached (imap (fun i x => File n (g x) (h i x)) l) = map g l.
Proof.
  revert h. induction l as [|x l IH]; intros h; cbn [imap map]; [reflexivity|].
  unfold attached. cbn [flat_map app]. f_equal. apply (IH (fun i => h (S i))).
Qed.

Lemma attached_attachments c :
  attached (attachments c) = map base64ToBuffer (input_files c).
Proof.
  destruct c; cbn [attachments input_files]; first [reflexivity | apply attached_imap].
Qed.

Lemma attachments_named c :
  Forall (fun p => part_name p = lit "fileInput") (attachments c).
Proof.
  assert (H : forall {A} (f : nat -> A -> Part) (l : list A),
             (forall i x, part_name (f i x) = lit "fileInput") ->
             Forall (fun p => part_name p = lit "fileInput") (imap f l)).
  { intros A f l. revert f. induction l as [|x l IH]; intros f Hf; cbn [imap];
      constructor; [apply Hf | apply IH; intros i y; apply Hf]. }
  destruct c; cbn [attachments];
    first [ apply H; reflexivity | repeat constructor ].
Qed.

Lemma fields_attach_nothing fields :
  forallb is_field fields = true -> attached fields = [] /\ binary_parts fields = [].
Proof.
  induction fields as [|p fields IH]; [split; reflexivity|].
  cbn [forallb]. intros [Hp Hf]%andb_true_iff.
  destruct p; [|discriminate Hp]. exact (IH Hf).
Qed.

Lemma files_are_binary files : forallb is_file files = true -> binary_parts files = files.
Proof.
  induction files as [|p files IH]; [reflexivity|].
  cbn [forallb]. intros [Hp Hf]%andb_true_iff.
  unfold binary_parts. cbn [List.filter]. rewrite Hp. f_equal. exact (IH Hf).
Qed.

End RequestFacts.

(** X5: a handler issues one request or none, never more: the requests
    issued before stay as they were, and a request goes to the configured
    base URL (the local default when the variable is unset or empty)
    followed by a path under [/api/v1/], with the two-minute timeout. *)
Theorem handler_sends_one_request_or_none (w : World) (c : Invocation)
    (log : list Request) :
  snd (invoke w c log) = log
  \/ exists request endpoint,
       snd (invoke w c log) = log ++ [request]
       /\ url request
          = default (lit "http://localhost:8080") (configured (env_STIRLING_PDF_URL w))
            ++ lit "/api/v1/" ++ endpoint
       /\ timeout request = 120000.
Proof.
  destruct (invoke_log w c log) as [E | [ep [fields [E _]]]]; [now left | right].
  eexists _, ep. split; [exact E|]. cbn [url timeout request_for].
  unfold STIRLING_PDF_URL. now rewrite env_or_configured.
Qed.

(** X6: the request of a handler carries the headers of its multipart
    body and, when an API key is configured (set and not empty), the key
    under [X-API-KEY]; without a configured key no header is added. *)
Theorem credential_header (w : World) (c : Invocation) (log : list Request)
    (request : Request) :
  snd (invoke w c log) = log ++ [request] ->
  headers request
  = match configured (env_STIRLING_PDF_API_KEY w) with
    | Some key => <[lit "X-API-KEY" := key]> (getHeaders w (body request))
    | None => getHeaders w (body request)
    end.
Proof.
  intros H. destruct (sent_request w c log request H) as [ep [fields [-> _]]].
  cbn [headers body request_for]. unfold STIRLING_PDF_API_KEY.
  rewrite env_or_configured.
  destruct (configured (env_STIRLING_PDF_API_KEY w)) as [key|] eqn:E; [|reflexivity].
  destruct (env_STIRLING_PDF_API_KEY w) as [[|k0 key0]|]; try discriminate E.
  injection E as <-. reflexivity.
Qed.

Lemma credential_header_witness :
  headers (request_for keyed_world (lit "/api/v1/misc/compress-pdf")
             [File (lit "fileInput") (bytes "ABC") (lit "input.pdf");
              Field (lit "optimizeLevel") (lit "2");
              Field (lit "fastWebView") (lit "false")])
  = <[lit "X-API-KEY" := lit "s3cret"]>
      {[ lit "content-type" := lit "multipart/form-data" ]}.
Proof.
  exact (credential_header keyed_world (CompressPDF (Some (lit "QUJD")) None) []
           (request_for keyed_world (lit "/api/v1/misc/compress-pdf")
              [File (lit "fileInput") (bytes "ABC") (lit "input.pdf");
               Field (lit "optimizeLevel") (lit "2");
               Field (lit "fastWebView") (lit "false")])
           eq_refl).
Defined.

(** X7: in the request of a handler the binary parts are the handler's
    input documents, each decoded, one part per input and in input order;
    they all go under the name [fileInput] and come before every textual
    part. *)
Theorem inputs_are_attached_in_order (w : World) (c : Invocation)
    (log : list Request) (request : Request) :
  snd (invoke w c log) = log ++ [request] ->
  attached (body request) = map base64ToBuffer (input_files c)
  /\ Forall (fun p => part_name p = lit "fileInput") (binary_parts (body request))
  /\ exists fields,
       body request = binary_parts (body request) ++ fields
       /\ forallb is_field fields = true.
Proof.
  intros H. destruct (sent_request w c log request H) as [ep [fields [-> Hf]]].
  cbn [body request_for].
  destruct (fields_attach_nothing fields Hf) as [Ha Hb].
  assert (Hbin : binary_parts (attachments c ++ fields) = attachments c).
  { rewrite FormFacts.binary_parts_app, Hb, app_nil_r.
    apply files_are_binary, attachments_are_files. }
  rewrite Hbin. split; [|split].
  - unfold attached. rewrite flat_map_app. fold (attached fields).
    fold (attached (attachments c)). rewrite Ha, app_nil_r. apply attached_attachments.
  - apply attachments_named.
  - now exists fields.
Qed.

Lemma inputs_are_attached_in_order_witness :
  attached (body three_documents_request) = [bytes "ABC"; bytes "A"; bytes "AB"]
  /\ Forall (fun p => part_name p = lit "fileInput")
       (binary_parts (body three_documents_request))
  /\ exists fields,
       body three_documents_request
       = binary_parts (body three_documents_request) ++ fields
       /\ forallb is_field fields = true.
Proof.
  exact (inputs_are_attached_in_order (world_answering (Resolved []))
           (MergePDFs (Some [lit "QUJD"; lit "data:application/pdf;base64,QQ=="; lit "QUI="])
                      None) [] three_documents_request eq_refl).
Defined.

(** X8: the text of a handler starts with the check mark exactly when
    the upstream resolved the handler's request; when a check failed (no
    request) or the request was rejected, the text starts with the cross
    mark. *)
Theorem status_mark_follows_the_request (w : World) (c : Invocation)
    (log : list Request) :
  (exists request result rest,
      invoke w c log = (Returned (check_mark ++ rest), log ++ [request])
      /\ axios_post w request = Resolved result)
  \/ (exists rest,
         invoke w c log = (Returned (cross_mark ++ rest), log))
  \/ (exists request error rest,
         invoke w c log = (Returned (cross_mark ++ rest), log ++ [request])
         /\ axios_post w request = Rejected error).
Proof.
  destruct (invoke_sends w c log) as [[msg E] | [ep [fields [success [E [_ Hs]]]]]].
  - right. left. eexists. exact E.
  - rewrite E, callStirlingAPI_run.
    destruct (axios_post w (request_for w _ _)) as [result|error] eqn:Hw.
    + left. destruct (Hs result) as [rest Hrest].
      exists (request_for w (lit "/api/v1/" ++ ep) (attachments c ++ fields)), result, rest.
      cbn [deliver]. now rewrite Hrest.
    + right. right.
      exists (request_for w (lit "/api/v1/" ++ ep) (attachments c ++ fields)), error.
      cbn [deliver]. destruct (api_error error); eexists; split; (reflexivity || exact Hw).
Qed.

(** ** Trimming, splitting and encoding *)

Module TextFacts.

Lemma trimStart_split s :
  exists before, s = before ++ trimStart s /\ forallb is_space before = true.
Proof.
  induction s as [|c s [before [Hs Hb]]]; [now exists []|].
  cbn [trimStart]. destruct (is_space c) eqn:Hc.
  - exists (c :: before). cbn [forallb app]. rewrite Hc, Hb. now rewrite <- Hs.
  - now exists [].
Qed.

Lemma trimStart_first s :
  trimStart s = [] \/ exists c r, trimStart s = c :: r /\ is_space c = false.
Proof.
  induction s as [|c s IH]; [now left|].
  cbn [trimStart]. destruct (is_space c) eqn:Hc; [exact IH|].
  right. now exists c, s.
Qed.

Lemma forallb_rev (f : code_unit -> bool) s : forallb f (rev s) = forallb f s.
Proof.
  induction s as [|c s IH]; [reflexivity|].
  cbn [rev forallb]. rewrite forallb_app, IH. cbn [forallb].
  rewrite andb_true_r. apply andb_comm.
Qed.

Lemma trimEnd_split s :
  exists after, s = trimEnd s ++ after /\ forallb is_space after = true.
Proof.
  destruct (trimStart_split (rev s)) as [before [Hs Hb]].
  exists (rev before). split; [|now rewrite forallb_rev].
  unfold trimEnd. rewrite <- rev_app_distr, <- Hs. now rewrite rev_involutive.
Qed.

Lemma trimEnd_last s :
  trimEnd s = [] \/ exists r c, trimEnd s = r ++ [c] /\ is_space c = false.
Proof.
  unfold trimEnd. destruct (trimStart_first (rev s)) as [-> | [c [r [-> Hc]]]];
    [now left | right].
  exists (rev r), c. now cbn [rev].
Qed.

(** Trimming the end leaves the start alone. *)
Lemma trimEnd_keeps_first c r :
  is_space c = false -> exists r', trimEnd (c :: r) = c :: r'.
Proof.
  intros Hc. destruct (trimEnd_split (c :: r)) as [after [Hs Ha]].
  destruct (trimEnd (c :: r)) as [|d r'] eqn:E.
  - cbn [app] in Hs. subst after. cbn [forallb] in Ha. now rewrite Hc in Ha.
  - injection Hs as <- _. now exists r'.
Qed.

Lemma split_on_nonempty sep s : split_on sep s <> [].
Proof.
  destruct s as [|c s]; cbn [split_on]; [discriminate|].
  destruct (c =? sep); [discriminate|]. now destruct (split_on sep s).
Qed.

Lemma join_split_on sep s : join sep (split_on sep s) = s.
Proof.
  induction s as [|c s IH]; [reflexivity|].
  cbn [split_on]. destruct (c =? sep) eqn:E.
  - apply N.eqb_eq in E as ->.
    pose proof (split_on_nonempty sep s) as Hne.
    destruct (split_on sep s) as [|p ps]; [congruence|].
    cbn [join app]. now rewrite <- IH.
  - pose proof (split_on_nonempty sep s) as Hne.
    destruct (split_on sep s) as [|p ps]; [congruence|].
    rewrite <- IH. now destruct ps.
Qed.

Lemma split_on_pieces sep s : Forall (fun p => ~ In sep p) (split_on sep s).
Proof.
  induction s as [|c s IH]; [repeat constructor; intros []|].
  cbn [split_on]. destruct (c =? sep) eqn:E.
  - constructor; [intros [] | exact IH].
  - destruct (split_on sep s) as [|p ps].
    + constructor; [|constructor]. intros [->|[]]. now rewrite N.eqb_refl in E.
    + inversion IH as [|? ? Hp Hps]; subst. constructor; [|exact Hps].
      intros [->|H]; [now rewrite N.eqb_refl in E | now apply Hp].
Qed.

Lemma standard_enc v : v < 64 -> standard_char (Buffer.enc v) = true.
Proof.
  apply (Base64Facts.check_below 64 (fun v => standard_char (Buffer.enc v))).
  vm_compute. reflexivity.
Qed.

Lemma toBase64_valid b : valid_base64 (Buffer.toBase64 b) = true.
Proof.
  induction b as [|x|x y|x y z r IH] using Base64Facts.triples_ind.
  - reflexivity.
  - unfold Buffer.toBase64, Buffer.enc1. cbn [valid_base64].
    rewrite !standard_enc
      by first [apply Base64Facts.hi6_bound | apply Base64Facts.mid1_zero_bound].
    reflexivity.
  - unfold Buffer.toBase64, Buffer.enc2. cbn [valid_base64].
    rewrite !standard_enc
      by first [ apply Base64Facts.hi6_bound | apply Base64Facts.mid1_bound
               | apply Base64Facts.mid2_zero_bound ].
    reflexivity.
  - change (Buffer.toBase64 (x :: y :: z :: r))
      with (Buffer.enc3 x y z ++ Buffer.toBase64 r).
    unfold Buffer.enc3. cbn [app].
    destruct (Buffer.toBase64 r) as [|e r'] eqn:E; cbn [valid_base64];
      rewrite !standard_enc
        by first [ apply Base64Facts.hi6_bound | apply Base64Facts.mid1_bound
                 | apply Base64Facts.mid2_bound | apply Base64Facts.lo6_bound ];
      [reflexivity | exact IH].
Qed.

Lemma toBase64_length b :
  length (Buffer.toBase64 b) = (4 * ((length b + 2) / 3))%nat.
Proof.
  induction b as [|x|x y|x y z r IH] using Base64Facts.triples_ind;
    try reflexivity.
  change (Buffer.toBase64 (x :: y :: z :: r))
    with (Buffer.enc3 x y z ++ Buffer.toBase64 r).
  rewrite length_app, IH. cbn [length Buffer.enc3].
  replace (S (S (S (length r))) + 2)%nat with ((length r + 2) + 1 * 3)%nat by lia.
  rewrite Nat.div_add by lia. lia.
Qed.

Lemma field_values_imap {A} (n : jsstring) (f : A -> jsstring) (l : list A) :
  field_values n (imap (fun _ x => Field n (f x)) l) = map f l.
Proof.
  induction l as [|x l IH]; [reflexivity|].
  cbn [imap map]. unfold field_values. cbn [flat_map].
  rewrite bool_decide_eq_true_2 by reflexivity. cbn [app]. f_equal. exact IH.
Qed.

Lemma field_values_app n a b :
  field_values n (a ++ b) = field_values n a ++ field_values n b.
Proof. apply flat_map_app. Qed.

Lemma field_values_files n l :
  forallb is_file l = true -> field_values n l = [].
Proof.
  induction l as [|p l IH]; [reflexivity|].
  cbn [forallb]. intros [Hp Hl]%andb_true_iff.
  destruct p; [discriminate Hp|]. exact (IH Hl).
Qed.

Lemma field_values_other n m v : m <> n -> field_values n [Field m v] = [].
Proof.
  intros H. unfold field_values. cbn [flat_map].
  now rewrite bool_decide_eq_false_2.
Qed.

End TextFacts.

(** X9: a value that [validateRequired] accepts comes back trimmed: the
    returned text is the value without a run of white space at its start
    and one at its end, it is not empty, and it starts and ends with a
    character that is not white space.  Nothing is thrown and no request
    is issued. *)
Theorem accepted_value_is_trimmed (v fieldName : jsstring) (log : list Request) :
  blank (Some v) = false ->
  exists before t after,
    validateRequired (Some v) fieldName log = (Returned t, log)
    /\ v = before ++ t ++ after
    /\ forallb is_space before = true /\ forallb is_space after = true
    /\ (exists c r, t = c :: r /\ is_space c = false)
    /\ (exists r c, t = r ++ [c] /\ is_space c = false).
Proof.
  intros Hv. rewrite validateRequired_run, Hv.
  destruct (TextFacts.trimStart_split v) as [before [Hs Hb]].
  destruct (TextFacts.trimEnd_split (trimStart v)) as [after [He Ha]].
  exists before, (trim v), after. unfold trim.
  split; [reflexivity|]. split; [now rewrite <- He|]. split; [exact Hb|].
  split; [exact Ha|].
  destruct (JsFacts.trimStart_head v Hv) as [c [r [E Hc]]]. rewrite E. split.
  - destruct (TextFacts.trimEnd_keeps_first c r Hc) as [r' ->]. now exists c, r'.
  - destruct (TextFacts.trimEnd_last (c :: r)) as [Hnil | H]; [|exact H].
    destruct (TextFacts.trimEnd_keeps_first c r Hc) as [r' E']. congruence.
Qed.

Lemma accepted_value_is_trimmed_witness :
  exists before t after,
    validateRequired (Some (lit "  2,4 ")) (lit "pageNumbers") [] = (Returned t, [])
    /\ lit "  2,4 " = before ++ t ++ after
    /\ forallb is_space before = true /\ forallb is_space after = true
    /\ (exists c r, t = c :: r /\ is_space c = false)
    /\ (exists r c, t = r ++ [c] /\ is_space c = false).
Proof.
  exact (accepted_value_is_trimmed (lit "  2,4 ") (lit "pageNumbers") [] eq_refl).
Defined.

(** X10: the OCR handler sends one [languages] field per piece of the
    comma-separated language list, in order and each piece trimmed; the
    pieces are what lies between the commas, so an empty list still sends
    one (empty) field. *)
Theorem ocr_sends_one_field_per_language (w : World) (pdfFile : option jsstring)
    (languages : jsstring) (sidecar deskew clean cleanFinal ocrType : option jsstring)
    (log : list Request) :
  blank pdfFile = false ->
  exists request text pieces,
    ocrPDF w pdfFile (Some languages) sidecar deskew clean cleanFinal ocrType log
    = (Returned text, log ++ [request])
    /\ pieces <> [] /\ join 44 pieces = languages
    /\ Forall (fun p => ~ In 44 p) pieces
    /\ field_values (lit "languages") (body request) = map trim pieces.
Proof.
  intros Hb. unfold ocrPDF. cbv zeta.
  rewrite try_validate, try_call, blank_default, Hb.
  match goal with |- context [deliver (callStirlingAPI w ?ep ?fd log) ?k] =>
    destruct (deliver_sends w ep fd k log) as [text ->];
    exists (request_for w ep fd), text, (split_on 44 languages) end.
  split; [reflexivity|]. split; [apply TextFacts.split_on_nonempty|].
  split; [apply TextFacts.join_split_on|]. split; [apply TextFacts.split_on_pieces|].
  cbn [body request_for]. unfold forEach, append_file, append.
  rewrite (FormFacts.forEach_append (fun lang (_ : nat) => Field (lit "languages") lang)).
  rewrite !TextFacts.field_values_app.
  rewrite (TextFacts.field_values_imap (lit "languages") (fun l => l)).
  rewrite map_id.
  rewrite !TextFacts.field_values_other
    by (intros E; vm_compute in E; discriminate E).
  cbn [default]. unfold field_values. cbn [flat_map app].
  now rewrite !app_nil_r.
Qed.

Lemma ocr_sends_one_field_per_language_witness :
  exists request text pieces,
    ocrPDF (world_answering (Resolved [])) (Some (lit "QUJD")) (Some (lit "eng, spa"))
      None None None None None []
    = (Returned text, [] ++ [request])
    /\ pieces <> [] /\ join 44 pieces = lit "eng, spa"
    /\ Forall (fun p => ~ In 44 p) pieces
    /\ field_values (lit "languages") (body request) = map trim pieces.
Proof.
  exact (ocr_sends_one_field_per_language (world_answering (Resolved []))
           (Some (lit "QUJD")) (lit "eng, spa") None None None None None [] eq_refl).
Defined.

(** The language list of the specification's example. *)
Example eng_spa :
  map trim (split_on 44 (lit "eng, spa")) = [lit "eng"; lit "spa"].
Proof. reflexivity. Qed.

(** X11: for two documents or more the merge handler names the part of
    its i-th input (counting from 1) [file<i>.pdf] and forwards the sort
    order as it is given, or [orderProvided] when it is absent, in a single
    [sortType] field. *)
Theorem merge_part_filenames (w : World) (files : list jsstring)
    (sortType : option jsstring) (log : list Request) :
  (2 <= length files)%nat ->
  exists request text,
    mergePDFs w (Some files) sortType log = (Returned text, log ++ [request])
    /\ field_values (lit "sortType") (body request)
       = [default (lit "orderProvided") sortType]
    /\ forall (i : nat) input,
         files !! i = Some input ->
         binary_parts (body request) !! i
         = Some (File (lit "fileInput") (base64ToBuffer input)
                      (lit "file" ++ of_nat (i + 1) ++ lit ".pdf")).
Proof.
  intros Hlen. rewrite mergePDFs_sends by exact Hlen.
  match goal with |- context [deliver (callStirlingAPI w ?ep ?fd log) ?k] =>
    destruct (deliver_sends w ep fd k log) as [text ->];
    exists (request_for w ep fd), text end.
  split; [reflexivity|]. cbn [body request_for]. split.
  - rewrite TextFacts.field_values_app, TextFacts.field_values_files.
    + reflexivity.
    + apply (attachments_are_files (MergePDFs (Some files) sortType)).
  - intros i input Hi. rewrite FormFacts.binary_parts_app.
    unfold binary_parts at 1. rewrite FormFacts.filter_files by reflexivity.
    rewrite lookup_app_l by (rewrite length_imap; now apply lookup_lt_Some in Hi).
    now rewrite list_lookup_imap, Hi.
Qed.

Lemma merge_part_filenames_witness :
  exists request text,
    mergePDFs (world_answering (Resolved []))
      (Some [lit "QUJD"; lit "QUI="; lit "QQ=="]) (Some (lit "alphabetical")) []
    = (Returned text, [] ++ [request])
    /\ field_values (lit "sortType") (body request)
       = [default (lit "orderProvided") (Some (lit "alphabetical"))]
    /\ forall (i : nat) input,
         [lit "QUJD"; lit "QUI="; lit "QQ=="] !! i = Some input ->
         binary_parts (body request) !! i
         = Some (File (lit "fileInput") (base64ToBuffer input)
                      (lit "file" ++ of_nat (i + 1) ++ lit ".pdf")).
Proof.
  apply (merge_part_filenames (world_answering (Resolved []))
           [lit "QUJD"; lit "QUI="; lit "QQ=="] (Some (lit "alphabetical")) []).
  cbn. lia.
Defined.

(** X12: the payload of a data URL that [bufferToBase64DataUrl] builds
    is strict base64: characters of the standard alphabet in groups of
    four, padded at the end only, four characters for every three bytes
    begun, with no line break or other separator. *)
Theorem data_url_payload_is_strict_base64 (buffer : Buffer.t) (mimeType : option jsstring) :
  exists payload,
    bufferToBase64DataUrl buffer mimeType
    = lit "data:" ++ default (lit "application/pdf") mimeType ++ lit ";base64," ++ payload
    /\ valid_base64 payload = true
    /\ length payload = (4 * ((length buffer + 2) / 3))%nat.
Proof.
  exists (Buffer.toBase64 buffer). split; [reflexivity|].
  split; [apply TextFacts.toBase64_valid | apply TextFacts.toBase64_length].
Qed.

(** X13: a required text argument is trimmed for the check only: the
    split, watermark and remove-pages handlers forward the page list or
    the watermark text exactly as given, surrounding white space
    included, in one field ([pagesToRemove] goes out as
    [pagesToDelete]). *)
Theorem required_text_is_forwarded_verbatim (w : World) (c : Invocation)
    (log : list Request) (request : Request) :
  snd (invoke w c log) = log ++ [request] ->
  Forall (fun nv => field_values (fst nv) (body request) = [snd nv]) (forwarded_text c).
Proof.
  intros H.
  assert (Hlog : forall text, (Returned text, log) = invoke w c log -> False).
  { intros text E. rewrite <- E in H. cbn [snd] in H.
    apply (f_equal (@length Request)) in H. rewrite length_app in H. cbn in H. lia. }
  destruct c; cbn [forwarded_text]; try constructor; try constructor;
    cbn [invoke fst snd] in *;
    [ unfold splitPDF in * | unfold addWatermark in * | unfold removePages in * ];
    cbv zeta in *;
    rewrite ?try_validate, ?try_call, ?blank_default in *;
    repeat match goal with
           | _ : context [if ?b then _ else _] |- _ => destruct b
           end;
    try (exfalso; eapply Hlog; reflexivity);
    match type of H with context [deliver (callStirlingAPI w ?ep ?fd log) ?k] =>
      destruct (deliver_sends w ep fd k log) as [text E]; rewrite E in H
    end;
    cbn [snd] in H; apply app_inj_tail in H as [_ <-];
    cbn [body request_for]; unfold field_values, append, append_file;
    cbn [flat_map app];
    rewrite ?bool_decide_eq_true_2 by reflexivity;
    rewrite ?bool_decide_eq_false_2 by (intros E'; vm_compute in E'; discriminate E');
    reflexivity.
Qed.

Lemma required_text_is_forwarded_verbatim_witness :
  Forall (fun nv =>
            field_values (fst nv)
              (body (request_for (world_answering (Resolved []))
                       (lit "/api/v1/general/remove-pages")
                       [File (lit "fileInput") (bytes "ABC") (lit "input.pdf");
                        Field (lit "pagesToDelete") (lit " 1,3 ")]))
            = [snd nv])
         [(lit "pagesToDelete", lit " 1,3 ")].
Proof.
  exact (required_text_is_forwarded_verbatim (world_answering (Resolved []))
           (RemovePages (Some (lit "QUJD")) (Some (lit " 1,3 "))) []
           (request_for (world_answering (Resolved []))
              (lit "/api/v1/general/remove-pages")
              [File (lit "fileInput") (bytes "ABC") (lit "input.pdf");
               Field (lit "pagesToDelete") (lit " 1,3 ")])
           eq_refl).
Defined.

(** X14: a request for a catalog tool with well-typed arguments that
    lacks a property which the tool's schema lists as required issues no
    network request and gets a failure text, in an envelope that is not
    flagged as an error. *)
Theorem missing_required_property_fails (w : World) (t : Catalog.Tool)
    (k : jsstring) (o : gmap jsstring JsValue) (log : list Request) :
  In t Catalog.listTools -> In k (Catalog.required t) -> o !! k = None ->
  well_typed {| name := Catalog.name t; arguments := Some o |} = true ->
  exists rest,
    callTool w {| name := Catalog.name t; arguments := Some o |} log
    = (Returned (text_result (cross_mark ++ rest)), log).
Proof.
  intros Ht Hk Ho Hwt.
  destruct (well_typed_requested _ Hwt) as [c Hc].
  { cbn [name]. rewrite <- catalog_names. now apply in_map. }
  rewrite (callTool_requested w _ log c Hc). clear Hwt. revert Hc.
  cbv [Catalog.listTools Catalog.TOOLS In] in Ht.
  repeat (destruct Ht as [<-|Ht]); [..|destruct Ht];
    cbn [Catalog.required In] in Hk;
    repeat (destruct Hk as [<-|Hk]); try destruct Hk;
    cbn [Catalog.name];
    unfold requested; cbn [name arguments];
    rewrite ?decide_False by (intros E; vm_compute in E; discriminate E);
    rewrite decide_True by reflexivity;
    unfold string_argument, array_argument, prop; rewrite Ho;
    cbn [given_string given_array mbind option_bind];
    repeat match goal with
           | |- context [given_string ?v] =>
               destruct (given_string v) as [?|]; cbn [mbind option_bind]
           | |- context [given_array ?v] =>
               destruct (given_array v) as [?|]; cbn [mbind option_bind]
           end;
    try discriminate; intros [= <-]; cbn [invoke];
    [ unfold mergePDFs | unfold splitPDF | unfold splitPDF | unfold compressPDF
    | unfold convertPDFToImages | unfold rotatePDF | unfold addWatermark
    | unfold addWatermark | unfold removePages | unfold removePages
    | unfold extractImages | unfold convertImagesToPDF | unfold ocrPDF ];
    cbv zeta; rewrite ?try_validate, ?try_guard, ?blank_default;
    cbn [default blank length Nat.ltb Nat.leb wrap];
    repeat match goal with
           | |- context [if ?b then _ else _] => destruct b
           end;
    eexists; reflexivity.
Qed.

Lemma missing_required_property_fails_witness :
  exists rest,
    callTool (world_answering (Resolved []))
      {| name := lit "add_watermark";
         arguments := Some {[ lit "pdfFile" := JString (lit "QUJD") ]} |} []
    = (Returned (text_result (cross_mark ++ rest)), []).
Proof.
  refine (missing_required_property_fails (world_answering (Resolved []))
            (default {| Catalog.name := []; Catalog.description := [];
                        Catalog.properties := []; Catalog.required := [] |}
                     (Catalog.listTools !! 5%nat))
            (lit "watermarkText") {[ lit "pdfFile" := JString (lit "QUJD") ]} [] _ _ _ _).
  - vm_compute. repeat first [left; reflexivity | right].
  - vm_compute. repeat first [left; reflexivity | right].
  - reflexivity.
  - vm_compute. reflexivity.
Defined.
